(** * Wren AI proxy server (main.py): a shallow embedding and its properties

    The development follows main.py top to bottom: the Python values the
    handlers manipulate (strings, integers, dictionaries, exceptions),
    the two libraries they call (httpx and json, taken as interfaces), then
    [async_wren_call], [validate_api_key_and_project], [handle_wren_query],
    [stream_wren_response] and [handle_wren_streaming_query].

    Strings are Rocq strings read as the UTF-8 text of the Python [str]:
    [strip] and [int] recognise the white space and the decimal digits of
    Unicode through their UTF-8 bytes.  The diagnostic [print] calls of the
    source have no counterpart here. *)

From Stdlib Require Import ZArith NArith String Ascii DecimalString.
From stdpp Require Import base option list strings gmap.
Set Warnings "-register-all".
Open Scope string_scope.
Open Scope Z_scope.

(** ** Python strings *)

Module Py.

(** *** UTF-8 *)

Definition is_cont (b : ascii) : bool :=
  ((128 <=? N_of_ascii b) && (N_of_ascii b <? 192))%N.

(** The code point of a two-byte and of a three-byte sequence, when the
    bytes have that shape. *)
Definition cp2 (b0 b1 : ascii) : option N :=
  if ((192 <=? N_of_ascii b0) && (N_of_ascii b0 <? 224))%N && is_cont b1
  then Some ((N_of_ascii b0 - 192) * 64 + (N_of_ascii b1 - 128))%N
  else None.

Definition cp3 (b0 b1 b2 : ascii) : option N :=
  if ((224 <=? N_of_ascii b0) && (N_of_ascii b0 <? 240))%N && is_cont b1 && is_cont b2
  then Some ((N_of_ascii b0 - 224) * 4096 + (N_of_ascii b1 - 128) * 64
             + (N_of_ascii b2 - 128))%N
  else None.

Definition cp4 (b0 b1 b2 b3 : ascii) : option N :=
  if ((240 <=? N_of_ascii b0) && (N_of_ascii b0 <? 248))%N
     && is_cont b1 && is_cont b2 && is_cont b3
  then Some ((N_of_ascii b0 - 240) * 262144 + (N_of_ascii b1 - 128) * 4096
             + (N_of_ascii b2 - 128) * 64 + (N_of_ascii b3 - 128))%N
  else None.

(** What a byte that starts no character decodes to: a number that is no
    code point.  The text of a Python [str] has no such byte. *)
Definition stray : N := 1114112%N.

(** The code points of a text. *)
Fixpoint decode (s : string) : list N :=
  match s with
  | EmptyString => []
  | String b0 r0 =>
      if (N_of_ascii b0 <? 128)%N then N_of_ascii b0 :: decode r0
      else
        match r0 with
        | EmptyString => [stray]
        | String b1 r1 =>
            match cp2 b0 b1 with
            | Some c => c :: decode r1
            | None =>
                match r1 with
                | EmptyString => stray :: decode r0
                | String b2 r2 =>
                    match cp3 b0 b1 b2 with
                    | Some c => c :: decode r2
                    | None =>
                        match r2 with
                        | EmptyString => stray :: decode r0
                        | String b3 r3 =>
                            match cp4 b0 b1 b2 b3 with
                            | Some c => c :: decode r3
                            | None => stray :: decode r0
                            end
                        end
                    end
                end
            end
        end
  end.

(** *** Letter case *)

Definition upper_char (c : ascii) : ascii :=
  let n := nat_of_ascii c in
  if ((97 <=? n) && (n <=? 122))%nat then ascii_of_nat (n - 32) else c.

Definition lower_char (c : ascii) : ascii :=
  let n := nat_of_ascii c in
  if ((65 <=? n) && (n <=? 90))%nat then ascii_of_nat (n + 32) else c.

Fixpoint map_chars (f : ascii -> ascii) (s : string) : string :=
  match s with
  | EmptyString => EmptyString
  | String c r => String (f c) (map_chars f r)
  end.

(** [s.upper()] and [s.lower()] on the letters of ASCII; other characters
    are left as they are.  The program compares the results with ASCII words
    only ([POST], [get], ...): no text with a character outside ASCII lowers
    to one of those of the client's methods, and a call is made for those
    alone. *)
Definition upper : string -> string := map_chars upper_char.
Definition lower : string -> string := map_chars lower_char.

(** Membership of a string in a list literal, [x in [a, b, c]]. *)
Definition str_in (x : string) (l : list string) : bool :=
  existsb (String.eqb x) l.

(** *** White space *)

(** [str.isspace] on one code point. *)
Definition is_space (c : N) : bool :=
  ((9 <=? c) && (c <=? 13) || (28 <=? c) && (c <=? 32)
   || (c =? 133) || (c =? 160) || (c =? 5760)
   || (8192 <=? c) && (c <=? 8202)
   || (c =? 8232) || (c =? 8233) || (c =? 8239) || (c =? 8287) || (c =? 12288))%N.

Definition space1 (b0 : ascii) : bool :=
  (N_of_ascii b0 <? 128)%N && is_space (N_of_ascii b0).

Definition space2 (b0 b1 : ascii) : bool :=
  match cp2 b0 b1 with
  | Some c => is_space c
  | None => false
  end.

Definition space3 (b0 b1 b2 : ascii) : bool :=
  match cp3 b0 b1 b2 with
  | Some c => is_space c
  | None => false
  end.

(** Drops the leading characters that [p1], [p2], [p3] recognise by their
    one, two or three bytes. *)
Fixpoint skip (p1 : ascii -> bool) (p2 : ascii -> ascii -> bool)
    (p3 : ascii -> ascii -> ascii -> bool) (l : list ascii) : list ascii :=
  match l with
  | [] => []
  | b0 :: r0 =>
      if p1 b0 then skip p1 p2 p3 r0
      else
        match r0 with
        | [] => l
        | b1 :: r1 =>
            if p2 b0 b1 then skip p1 p2 p3 r1
            else
              match r1 with
              | [] => l
              | b2 :: r2 => if p3 b0 b1 b2 then skip p1 p2 p3 r2 else l
              end
        end
  end.

Definition lstrip_bytes : list ascii -> list ascii := skip space1 space2 space3.

(** From the end, the bytes of a character come last byte first. *)
Definition rstrip_bytes (l : list ascii) : list ascii :=
  rev (skip space1 (fun b1 b0 => space2 b0 b1) (fun b2 b1 b0 => space3 b0 b1 b2) (rev l)).

(** [s.strip()] without argument. *)
Definition strip (s : string) : string :=
  string_of_list_ascii (rstrip_bytes (lstrip_bytes (list_ascii_of_string s))).

(** *** Integers *)

(** The decimal digits [int] reads, by the first code point of each run of
    ten, zero to nine: the characters of category Nd in Unicode 14.0, the
    version of CPython 3.11.  ASCII, Arabic-Indic, Devanagari, ..., fullwidth
    and the mathematical digits are among them. *)
Definition decimal_zeros : list N :=
  [48; 1632; 1776; 1984; 2406; 2534; 2662; 2790; 2918; 3046; 3174; 3302; 3430;
   3558; 3664; 3792; 3872; 4160; 4240; 6112; 6160; 6470; 6608; 6784; 6800; 6992;
   7088; 7232; 7248; 42528; 43216; 43264; 43472; 43504; 43600; 44016; 65296;
   66720; 68912; 69734; 69872; 69942; 70096; 70384; 70736; 70864; 71248; 71360;
   71472; 71904; 72016; 72784; 73040; 73120; 92768; 92864; 93008; 120782;
   120792; 120802; 120812; 120822; 123200; 123632; 125264; 130032]%N.

(** The value of a code point as a decimal digit. *)
Definition decimal (c : N) : option N :=
  (fun z => c - z)%N <$> find (fun z => (z <=? c) && (c <? z + 10))%N decimal_zeros.

(** The white space of the C locale, which the parser of integers skips. *)
Definition c_space (c : N) : bool := ((9 <=? c) && (c <=? 13) || (c =? 32))%N.

(** What [int] makes of a text before parsing: an ASCII text stays as it is;
    in another, the characters from 127 on become a space when they are white
    space, their ASCII digit when they are decimal digits, and a question
    mark otherwise. *)
Definition to_ascii (cps : list N) : list N :=
  if forallb (fun c => c <? 128)%N cps then cps
  else map (fun c => if (c <? 127)%N then c
                     else if is_space c then 32%N
                     else match decimal c with
                          | Some d => (48 + d)%N
                          | None => 63%N
                          end) cps.

Fixpoint drop_while {A} (p : A -> bool) (l : list A) : list A :=
  match l with
  | [] => []
  | x :: r => if p x then drop_while p r else l
  end.

Definition digit_value (c : N) : option Z :=
  if ((48 <=? c) && (c <=? 57))%N then Some (Z.of_N (c - 48)) else None.

(** The digits of a decimal literal as [int] reads them: at least one digit,
    single underscores allowed between two digits only.  [prev] tells whether
    the previous character was a digit; the result is the value and the
    number of digits read. *)
Fixpoint int_digits (l : list N) (acc : Z) (count : nat) (prev : bool)
  : option (Z * nat) :=
  match l with
  | [] => if prev then Some (acc, count) else None
  | c :: r =>
      match digit_value c with
      | Some d => int_digits r (10 * acc + d) (S count) true
      | None =>
          if (c =? 95)%N && prev then int_digits r acc count false
          else None
      end
  end.

(** CPython's default bound on the number of digits [int] converts from a
    string ([sys.int_info.default_max_str_digits]); a longer literal raises
    [ValueError] like a malformed one. *)
Definition int_max_str_digits : nat := 4300.

Definition int_unsigned (l : list N) : option Z :=
  match int_digits l 0 0%nat false with
  | Some (n, count) => if (count <=? int_max_str_digits)%nat then Some n else None
  | None => None
  end.

(** [int(s)] for a string [s]: [Some n] when it returns [n], [None] when it
    raises [ValueError].  White space around the literal is skipped, then an
    optional sign is followed by the digits. *)
Definition int (s : string) : option Z :=
  match rev (drop_while c_space (rev (drop_while c_space (to_ascii (decode s))))) with
  | 43%N :: r => int_unsigned r
  | 45%N :: r => option_map Z.opp (int_unsigned r)
  | t => int_unsigned t
  end.

(** [str(n)] for an integer [n]. *)
Definition str_of_int (n : Z) : string := NilZero.string_of_int (Z.to_int n).

End Py.


(** ** Python values *)

(** The values JSON decoding produces and the request model carries.  A float
    stands as its [repr] text. *)
Inductive pyval :=
| PNone
| PBool (b : bool)
| PInt (n : Z)
| PFloat (repr : string)
| PStr (s : string)
| PList (l : list pyval)
| PDict (d : gmap string pyval).

(** The result of decoding a JSON text: the value, or the message of the
    [ValueError] ([json.JSONDecodeError]) raised. *)
Inductive decoded :=
| Decoded (v : pyval)
| DecodeError (msg : string).

(** [dict.update]: the entries of [new] replace those of [d]. *)
Definition dict_update (d new : gmap string pyval) : gmap string pyval := new ∪ d.

(** An [Optional[str]] as a value. *)
Definition of_optional_str (o : option string) : pyval :=
  match o with
  | None => PNone
  | Some s => PStr s
  end.

Definition nl : string := String "010"%char EmptyString.
Definition dq : string := String "034"%char EmptyString.

(** ** httpx responses and Python exceptions *)

Module Httpx.

(** A response as the program observes it.  [content], [text] and [json] are
    the body once read, its decoding and what [response.json()] gives;
    [chunks] is what [aiter_bytes] yields on a streamed response and [fault]
    the message of the transport error that interrupts the body, if any. *)
Record Response := {
  status_code : Z;
  content : string;
  text : string;
  json : decoded;
  chunks : list string;
  fault : option string
}.

(** [response.is_success]. *)
Definition is_success (r : Response) : bool :=
  (200 <=? status_code r) && (status_code r <=? 299).

End Httpx.

Inductive exn :=
| HTTPException (status_code : Z) (detail : string)
| HTTPStatusError (msg : string) (response : Httpx.Response)
| ValueError (msg : string)
| AttributeError (msg : string)
| OtherError (msg : string).

(** [str(e)]. *)
Definition exn_str (e : exn) : string :=
  match e with
  | HTTPException status_code detail => Py.str_of_int status_code +:+ ": " +:+ detail
  | HTTPStatusError msg _ => msg
  | ValueError msg => msg
  | AttributeError msg => msg
  | OtherError msg => msg
  end.

Inductive Result (A : Type) :=
| Ok (a : A)
| Raise (e : exn).
Arguments Ok {A} a.
Arguments Raise {A} e.

(** One call made on an [httpx.AsyncClient]: the client method ([get],
    [post], ... for a plain call, the verb for [client.stream]), the URL, the
    headers, the [json] keyword when given, and the client's timeout in
    seconds. *)
Record HttpCall := {
  call_method : string;
  call_url : string;
  call_headers : gmap string string;
  call_json : option (gmap string pyval);
  call_timeout : Z
}.

(** A computation that returns or raises, with the upstream calls it made. *)
Record IO (A : Type) := MkIO {
  outcome : Result A;
  calls : list HttpCall
}.
Arguments MkIO {A} outcome calls.
Arguments outcome {A} i.
Arguments calls {A} i.

Definition raise {A} (e : exn) : IO A := MkIO (Raise e) [].
Definition lift {A} (r : Result A) : IO A := MkIO r [].

#[export] Instance IO_ret : MRet IO := fun A a => MkIO (Ok a) [].

#[export] Instance IO_bind : MBind IO := fun A B f m =>
  match outcome m with
  | Ok a => MkIO (outcome (f a)) (calls m ++ calls (f a))
  | Raise e => MkIO (Raise e) (calls m)
  end.

(** [try: body  except Exception as e: handler e]; every [exn] is an
    [Exception], and what the handler raises leaves the statement. *)
Definition try_except {A} (body : IO A) (handler : exn -> IO A) : IO A :=
  match outcome body with
  | Ok a => body
  | Raise e => MkIO (outcome (handler e)) (calls body ++ calls (handler e))
  end.

(** The status FastAPI answers with: 200 for a returned value, the status of
    an [HTTPException], 500 for any other exception, which no handler of the
    application catches. *)
Definition http_status {A} (r : Result A) : Z :=
  match r with
  | Ok _ => 200
  | Raise (HTTPException status_code _) => status_code
  | Raise _ => 500
  end.

(** ** The libraries the program calls *)

(** The upstream service behind httpx: what a call returns or raises. *)
Class Upstream := {
  http_request : HttpCall -> Result Httpx.Response;
  http_stream : HttpCall -> Result Httpx.Response
}.

(** Library functions whose results the program only passes on. *)
Class Runtime := {
  json_loads : string -> decoded;
  json_dumps : option nat -> pyval -> string;
  str_container : pyval -> string;
  status_error_message : Httpx.Response -> string;
  no_client_method : string -> string
}.

(** ** main.py *)

Section Main.
Context `{Upstream} `{Runtime}.

(** [str(v)]. *)
Definition py_str (v : pyval) : string :=
  match v with
  | PNone => "None"
  | PBool true => "True"
  | PBool false => "False"
  | PInt n => Py.str_of_int n
  | PFloat repr => repr
  | PStr s => s
  | PList _ | PDict _ => str_container v
  end.

(** [response.raise_for_status()]: raises unless the status is 2xx. *)
Definition raise_for_status (response : Httpx.Response) : Result unit :=
  if Httpx.is_success response then Ok tt
  else Raise (HTTPStatusError (status_error_message response) response).

(** [response.json()]. *)
Definition response_json (response : Httpx.Response) : Result pyval :=
  match Httpx.json response with
  | Decoded v => Ok v
  | DecodeError msg => Raise (ValueError msg)
  end.

(** The methods of [httpx.AsyncClient] that send a request given a URL and
    keyword arguments. *)
Definition http_methods : list string :=
  ["get"; "options"; "head"; "post"; "put"; "patch"; "delete"].

(** [await getattr(client, name)(url, **kwargs)] on a client built with
    the call's timeout.  For any other [name] Python raises before a request
    is sent, an [AttributeError] when the client has no such attribute and a
    [TypeError] when it has one that does not take these arguments; the
    program observes the text of that exception only. *)
Definition client_call (c : HttpCall) : IO Httpx.Response :=
  if Py.str_in (call_method c) http_methods then MkIO (http_request c) [c]
  else raise (OtherError (no_client_method (call_method c))).

Definition WREN_BASE_URL : string := "https://cloud.getwren.ai/api/v1".

Record WrenRequest := {
  project_id : option string;
  text : option string;
  additional_payload : gmap string pyval
}.

(** The part of starlette's [Request] the handler reads.  The route is
    registered with [@app.post]: the handler is called for the method POST
    and for no other. *)
Record Request := {
  method : string;
  method_routed : method = "POST"
}.

Definition async_wren_call (method full_url : string)
    (json_data : option (gmap string pyval)) (wren_api_key : string) : IO pyval :=
  let headers : gmap string string :=
    <["Content-Type" := "application/json"]>
      (<["Authorization" := "Bearer " +:+ wren_api_key]> ∅) in
  try_except
    (let kwargs_json :=
       if bool_decide (json_data ≠ None)
          && Py.str_in (Py.upper method) ["POST"; "PUT"; "PATCH"]
       then json_data else None in
     response ← client_call {| call_method := Py.lower method;
                               call_url := full_url;
                               call_headers := headers;
                               call_json := kwargs_json;
                               call_timeout := 30 |};
     _ ← lift (raise_for_status response);
     if (Httpx.status_code response =? 204) || (Httpx.content response =? "")%string
     then mret (PDict (<["message" := PStr "Operation successful, no content returned."]> ∅))
     else lift (response_json response))
    (fun e =>
       match e with
       | HTTPStatusError _ response =>
           let error_content := Httpx.text response in
           let display_detail :=
             match Httpx.json response with
             | Decoded (PDict error_data) =>
                 let error_detail := default (PStr error_content) (error_data !! "detail") in
                 match error_detail with
                 | PDict _ | PList _ => json_dumps None error_detail
                 | _ => py_str error_detail
                 end
             | _ => error_content
             end in
           raise (HTTPException (Httpx.status_code response)
                    ("Wren API Request Failed (Method: " +:+ method +:+ ", Status: "
                     +:+ Py.str_of_int (Httpx.status_code response) +:+ "): "
                     +:+ display_detail))
       | e => raise (HTTPException 500 ("內部伺服器錯誤: " +:+ exn_str e))
       end).

Definition validate_api_key_and_project (wren_api_key project_id : string) : IO pyval :=
  let wren_full_url := WREN_BASE_URL +:+ "/projects/" +:+ Py.strip project_id in
  let headers : gmap string string :=
    <["Content-Type" := "application/json"]>
      (<["Authorization" := "Bearer " +:+ Py.strip wren_api_key]> ∅) in
  try_except
    (response ← client_call {| call_method := "get";
                               call_url := wren_full_url;
                               call_headers := headers;
                               call_json := None;
                               call_timeout := 10 |};
     _ ← lift (raise_for_status response);
     lift (response_json response))
    (fun e =>
       match e with
       | HTTPStatusError _ response =>
           if Httpx.status_code response =? 401 then
             raise (HTTPException 401 "API Key 驗證失敗或無效。")
           else if Httpx.status_code response =? 403 then
             raise (HTTPException 403 "API Key 無權限訪問此 Project ID。")
           else if Httpx.status_code response =? 404 then
             raise (HTTPException 404 "Project ID 不存在或 Key 無法存取。")
           else
             raise (HTTPException (Httpx.status_code response)
                      ("Wren API 請求失敗: " +:+ Httpx.text response))
       | e => raise (HTTPException 500 ("內部伺服器錯誤: " +:+ exn_str e))
       end).

(** [request_data] is [None] when the request carries no body. *)
Definition handle_wren_query (request : Request) (endpoint_path : string)
    (request_data : option WrenRequest) (wren_api_key : string) : IO pyval :=
  match request_data with
  | None => raise (AttributeError "'NoneType' object has no attribute 'project_id'")
  | Some request_data =>
      match project_id request_data with
      | None =>
          raise (HTTPException 400 "project_id is required in the request body.")
      | Some pid =>
          if (pid =? "")%string || (Py.strip pid =? "")%string then
            raise (HTTPException 400 "project_id is required in the request body.")
          else
            let wren_full_url := WREN_BASE_URL +:+ "/" +:+ endpoint_path in
            match Py.int (Py.strip pid) with
            | None => raise (HTTPException 400 "project_id must be a valid integer.")
            | Some project_id_int =>
                let wren_payload :=
                  <["projectId" := PInt project_id_int]>
                    (dict_update
                       (<["text" := of_optional_str (text request_data)]>
                          (<["question" := of_optional_str (text request_data)]> ∅))
                       (additional_payload request_data)) in
                async_wren_call (method request) wren_full_url (Some wren_payload)
                  (Py.strip wren_api_key)
            end
      end
  end.

(** What running an async generator gives: the chunks it yields, the
    exception that ends it when one escapes, and the upstream calls made. *)
Record Generated := {
  yielded : list string;
  escaped : option exn;
  gen_calls : list HttpCall
}.

(** The generator, run to its end.  [attempt] is the [try] body: the chunks
    it yields and the exception it raises, if any.  On a status of 400 or
    more [aread] reads the whole body, so a fault of the body is raised
    there, before [raise_for_status].  Encoding a frame to UTF-8 leaves the
    text as it is here. *)
Definition stream_wren_response (wren_full_url : string)
    (wren_payload : gmap string pyval) (wren_api_key : string) : Generated :=
  let headers : gmap string string :=
    <["Content-Type" := "application/json"]>
      (<["Authorization" := "Bearer " +:+ wren_api_key]> ∅) in
  let call := {| call_method := "POST";
                 call_url := wren_full_url;
                 call_headers := headers;
                 call_json := Some wren_payload;
                 call_timeout := 300 |} in
  let attempt : list string * option exn :=
    match http_stream call with
    | Raise e => ([], Some e)
    | Ok response =>
        let aiter_bytes := (Httpx.chunks response, OtherError <$> Httpx.fault response) in
        if 400 <=? Httpx.status_code response then
          match Httpx.fault response with
          | Some msg => ([], Some (OtherError msg))
          | None =>
              match raise_for_status response with
              | Raise e => ([], Some e)
              | Ok _ => aiter_bytes
              end
          end
        else aiter_bytes
    end in
  match attempt.2 with
  | None => {| yielded := attempt.1; escaped := None; gen_calls := [call] |}
  | Some (HTTPStatusError _ response) =>
      let display_error :=
        match json_loads (Httpx.text response) with
        | Decoded error_data =>
            json_dumps (Some 2%nat) (PDict (<["error" := error_data]> ∅))
        | DecodeError _ =>
            "{" +:+ dq +:+ "error" +:+ dq +:+ ": " +:+ dq +:+ Httpx.text response
            +:+ dq +:+ "}"
        end in
      {| yielded := attempt.1 ++ ["event: error" +:+ nl +:+ "data: " +:+ display_error
                                  +:+ nl +:+ nl];
         escaped := None;
         gen_calls := [call] |}
  | Some e =>
      let error_msg := "Internal Server Error: " +:+ exn_str e in
      {| yielded := attempt.1 ++ ["event: error" +:+ nl +:+ "data: " +:+ error_msg
                                  +:+ nl +:+ nl];
         escaped := None;
         gen_calls := [call] |}
  end.

(** [StreamingResponse(content, media_type=...)]: the status defaults to 200
    and the body is produced by running [content] once the handler has
    returned. *)
Record StreamingResponse := {
  sr_status_code : Z;
  media_type : string;
  body_iterator : Generated
}.

Definition handle_wren_streaming_query (endpoint_path : string)
    (request_data : option WrenRequest) (wren_api_key : string) : IO StreamingResponse :=
  match request_data with
  | None => raise (AttributeError "'NoneType' object has no attribute 'project_id'")
  | Some request_data =>
      match project_id request_data with
      | None =>
          raise (HTTPException 400 "project_id is required in the request body.")
      | Some pid =>
          if (pid =? "")%string || (Py.strip pid =? "")%string then
            raise (HTTPException 400 "project_id is required in the request body.")
          else
            let wren_full_url := WREN_BASE_URL +:+ "/" +:+ endpoint_path in
            match Py.int (Py.strip pid) with
            | None => raise (HTTPException 400 "project_id must be a valid integer.")
            | Some project_id_int =>
                let wren_payload :=
                  <["projectId" := PInt project_id_int]>
                    (dict_update
                       (<["text" := of_optional_str (text request_data)]>
                          (<["question" := of_optional_str (text request_data)]> ∅))
                       (additional_payload request_data)) in
                mret {| sr_status_code := 200;
                        media_type := "text/event-stream";
                        body_iterator :=
                          stream_wren_response wren_full_url wren_payload
                            (Py.strip wren_api_key) |}
            end
      end
  end.

(** The upstream calls serving a request causes: those of the handler, then
    those of the response body when the handler returned one. *)
Definition served_calls (r : IO StreamingResponse) : list HttpCall :=
  calls r ++ match outcome r with
             | Ok response => gen_calls (body_iterator response)
             | Raise _ => []
             end.

End Main.

(** ** Reading the handlers

    The calls the handlers make, and what each handler makes of the answer,
    as plain functions: the lemmas of the next part show that the handlers
    compute them. *)

Section Reading.
Context `{Runtime}.

(** The call [async_wren_call] makes. *)
Definition unary_call (method full_url : string)
    (json_data : option (gmap string pyval)) (wren_api_key : string) : HttpCall :=
  {| call_method := Py.lower method;
     call_url := full_url;
     call_headers := <["Content-Type" := "application/json"]>
                       (<["Authorization" := "Bearer " +:+ wren_api_key]> ∅);
     call_json := if bool_decide (json_data ≠ None)
                     && Py.str_in (Py.upper method) ["POST"; "PUT"; "PATCH"]
                  then json_data else None;
     call_timeout := 30 |}.

(** The detail [async_wren_call] reports for a failed response. *)
Definition failure_detail (response : Httpx.Response) : string :=
  match Httpx.json response with
  | Decoded (PDict error_data) =>
      match error_data !! "detail" with
      | Some (PDict d) => json_dumps None (PDict d)
      | Some (PList l) => json_dumps None (PList l)
      | Some v => py_str v
      | None => Httpx.text response
      end
  | _ => Httpx.text response
  end.

Definition failure_message (method : string) (response : Httpx.Response) : string :=
  "Wren API Request Failed (Method: " +:+ method +:+ ", Status: "
  +:+ Py.str_of_int (Httpx.status_code response) +:+ "): " +:+ failure_detail response.

Definition no_content : pyval :=
  PDict (<["message" := PStr "Operation successful, no content returned."]> ∅).

Definition internal_error (msg : string) : exn :=
  HTTPException 500 ("內部伺服器錯誤: " +:+ msg).

(** What [async_wren_call] makes of the answer to its call. *)
Definition client_outcome (method : string) (answer : Result Httpx.Response)
  : Result pyval :=
  match answer with
  | Ok response =>
      if Httpx.is_success response then
        if (Httpx.status_code response =? 204) || (Httpx.content response =? "")%string
        then Ok no_content
        else match Httpx.json response with
             | Decoded v => Ok v
             | DecodeError msg => Raise (internal_error msg)
             end
      else Raise (HTTPException (Httpx.status_code response)
                    (failure_message method response))
  | Raise (HTTPStatusError _ response) =>
      Raise (HTTPException (Httpx.status_code response)
               (failure_message method response))
  | Raise e => Raise (internal_error (exn_str e))
  end.

Definition validate_call (wren_api_key project_id : string) : HttpCall :=
  {| call_method := "get";
     call_url := WREN_BASE_URL +:+ "/projects/" +:+ Py.strip project_id;
     call_headers := <["Content-Type" := "application/json"]>
                       (<["Authorization" := "Bearer " +:+ Py.strip wren_api_key]> ∅);
     call_json := None;
     call_timeout := 10 |}.

Definition validate_failure (response : Httpx.Response) : exn :=
  if Httpx.status_code response =? 401 then
    HTTPException 401 "API Key 驗證失敗或無效。"
  else if Httpx.status_code response =? 403 then
    HTTPException 403 "API Key 無權限訪問此 Project ID。"
  else if Httpx.status_code response =? 404 then
    HTTPException 404 "Project ID 不存在或 Key 無法存取。"
  else
    HTTPException (Httpx.status_code response)
      ("Wren API 請求失敗: " +:+ Httpx.text response).

Definition validate_outcome (answer : Result Httpx.Response) : Result pyval :=
  match answer with
  | Ok response =>
      if Httpx.is_success response then
        match Httpx.json response with
        | Decoded v => Ok v
        | DecodeError msg => Raise (internal_error msg)
        end
      else Raise (validate_failure response)
  | Raise (HTTPStatusError _ response) => Raise (validate_failure response)
  | Raise e => Raise (internal_error (exn_str e))
  end.

(** The payload as the data model words it: the union of the two text keys
    with the extra fields, then [projectId] written over it.  Where the extra
    fields carry [question] or [text], theirs is the value kept. *)
Definition upstream_payload (request_data : WrenRequest) (n : Z) : gmap string pyval :=
  <["projectId" := PInt n]>
    (additional_payload request_data
     ∪ {["question" := of_optional_str (text request_data);
         "text" := of_optional_str (text request_data)]}).

Definition required_error : exn :=
  HTTPException 400 "project_id is required in the request body.".

Definition integer_error : exn :=
  HTTPException 400 "project_id must be a valid integer.".

Definition no_body_error : exn :=
  AttributeError "'NoneType' object has no attribute 'project_id'".

(** What the validation both handlers start with makes of a request: the
    exception raised, or the integer read. *)
Definition validated (request_data : option WrenRequest) : exn + Z :=
  match request_data with
  | None => inl no_body_error
  | Some rd =>
      match project_id rd with
      | None => inl required_error
      | Some pid =>
          if (pid =? "")%string || (Py.strip pid =? "")%string then inl required_error
          else match Py.int (Py.strip pid) with
               | None => inl integer_error
               | Some n => inr n
               end
      end
  end.

Definition stream_call (wren_full_url : string) (wren_payload : gmap string pyval)
    (wren_api_key : string) : HttpCall :=
  {| call_method := "POST";
     call_url := wren_full_url;
     call_headers := <["Content-Type" := "application/json"]>
                       (<["Authorization" := "Bearer " +:+ wren_api_key]> ∅);
     call_json := Some wren_payload;
     call_timeout := 300 |}.

(** The frame [event: error], [data: <data>], blank line. *)
Definition sse_error (data : string) : string :=
  "event: error" +:+ nl +:+ "data: " +:+ data +:+ nl +:+ nl.

End Reading.

(** ** Concrete libraries for the examples *)

Module Demo.

(** A complete response with the given status, body and decoding. *)
Definition response (status : Z) (body : string) (js : decoded) : Httpx.Response :=
  {| Httpx.status_code := status;
     Httpx.content := body;
     Httpx.text := body;
     Httpx.json := js;
     Httpx.chunks := [body];
     Httpx.fault := None |}.

(** A streamed response: the chunks, and the fault that interrupts them. *)
Definition streamed (status : Z) (chunks : list string) (fault : option string)
  : Httpx.Response :=
  {| Httpx.status_code := status;
     Httpx.content := "";
     Httpx.text := "";
     Httpx.json := DecodeError "Expecting value";
     Httpx.chunks := chunks;
     Httpx.fault := fault |}.

(** An upstream that gives the same answer to every call. *)
Definition answering (r : Result Httpx.Response) : Upstream :=
  {| http_request := fun _ => r; http_stream := fun _ => r |}.

Definition boom_text : string :=
  "{" +:+ dq +:+ "detail" +:+ dq +:+ ":" +:+ dq +:+ "boom" +:+ dq +:+ "}".

Definition boom : pyval := PDict {["detail" := PStr "boom"]}.

(** A decoder that knows one text. *)
Definition loads (s : string) : decoded :=
  if (s =? boom_text)%string then Decoded boom else DecodeError "Expecting value".

Fixpoint spaces (n : nat) : string :=
  match n with
  | O => ""
  | S k => " " +:+ spaces k
  end.

Definition join (sep : string) (l : list string) : string :=
  match l with
  | [] => ""
  | x :: r => foldl (fun a b => a +:+ sep +:+ b) x r
  end.

(** A serializer in the layout of [json.dumps], for values whose strings
    need no escaping; keys come in the order of the map. *)
Fixpoint dumps (indent : option nat) (depth : nat) (v : pyval) : string :=
  let brk d := match indent with
               | Some k => nl +:+ spaces (k * d)
               | None => ""
               end in
  let sep := match indent with
             | Some _ => ","
             | None => ", "
             end in
  match v with
  | PNone => "null"
  | PBool true => "true"
  | PBool false => "false"
  | PInt n => Py.str_of_int n
  | PFloat r => r
  | PStr s => dq +:+ s +:+ dq
  | PList l =>
      match l with
      | [] => "[]"
      | _ => "[" +:+ brk (S depth)
             +:+ join (sep +:+ brk (S depth)) (map (dumps indent (S depth)) l)
             +:+ brk depth +:+ "]"
      end
  | PDict d =>
      let items :=
        map_fold (fun k x acc =>
                    (acc ++ [dq +:+ k +:+ dq +:+ ": " +:+ dumps indent (S depth) x])%list)
          [] d in
      match items with
      | [] => "{}"
      | _ => "{" +:+ brk (S depth) +:+ join (sep +:+ brk (S depth)) items
             +:+ brk depth +:+ "}"
      end
  end.

Definition runtime : Runtime :=
  {| json_loads := loads;
     json_dumps := fun indent => dumps indent 0;
     str_container := dumps None 0;
     status_error_message := fun r => "status " +:+ Py.str_of_int (Httpx.status_code r);
     no_client_method := fun name => "'AsyncClient' object has no attribute '" +:+ name
                                     +:+ "'" |}.

Definition post : Request := {| method := "POST"; method_routed := eq_refl |}.

Definition ask (pid : option string) (extra : gmap string pyval) : WrenRequest :=
  {| project_id := pid; text := Some "hi"; additional_payload := extra |}.

End Demo.

Module Examples.

Definition ok_empty : Httpx.Response := Demo.response 200 "{}" (Decoded (PDict ∅)).

Definition failing : Httpx.Response := Demo.response 500 Demo.boom_text (Decoded Demo.boom).

Definition three_chunks : Httpx.Response := Demo.streamed 200 ["a"; "b"; "c"] None.

Definition url (endpoint_path : string) : string := WREN_BASE_URL +:+ "/" +:+ endpoint_path.

(** The upstream that answers every call with [response]. *)
Definition up (response : Httpx.Response) : Upstream := Demo.answering (Ok response).

Definition R : Runtime := Demo.runtime.

(** Requests for project 11237, without and with extra fields, and requests
    whose identifier is blank, not a number, or negative. *)
Definition plain : WrenRequest := Demo.ask (Some "11237") ∅.

Definition with_extra : WrenRequest :=
  Demo.ask (Some "11237") {["projectId" := PStr "x"; "limit" := PInt 5]}.

Definition blank : WrenRequest := Demo.ask (Some "   ") ∅.

Definition not_a_number : WrenRequest := Demo.ask (Some "abc") ∅.

Definition negative : WrenRequest := Demo.ask (Some "-5") ∅.

End Examples.

(** ** Properties *)

Section Properties.
Context `{Upstream} `{Runtime}.

(** *** Strings *)

Lemma int_empty : Py.int "" = None.
Proof. reflexivity. Qed.

Lemma strip_empty : Py.strip "" = "".
Proof. reflexivity. Qed.

(** A string whose stripped form converts to an integer passes the blank
    test of the handlers. *)
Lemma int_strip_not_blank (pid : string) (n : Z) :
  Py.int (Py.strip pid) = Some n ->
  ((pid =? "")%string || (Py.strip pid =? "")%string) = false.
Proof.
  intros Hint.
  destruct pid as [|a pid].
  - rewrite strip_empty, int_empty in Hint. discriminate.
  - destruct (Py.strip (String a pid)) as [|b t] eqn:Hs.
    + rewrite int_empty in Hint. discriminate.
    + reflexivity.
Qed.

Lemma blank_test_true (pid : string) :
  Py.strip pid = "" -> ((pid =? "")%string || (Py.strip pid =? "")%string) = true.
Proof.
  intros ->. apply orb_true_r.
Qed.

Lemma blank_test_false (pid : string) :
  Py.strip pid <> "" -> ((pid =? "")%string || (Py.strip pid =? "")%string) = false.
Proof.
  intros Hne. apply orb_false_intro.
  - apply String.eqb_neq. intros ->. apply Hne. reflexivity.
  - apply String.eqb_neq. exact Hne.
Qed.

(** [int] on the shapes of identifier a caller may send. *)
Example int_reads_decimal :
  Py.int "11237" = Some 11237 /\ Py.int " 42 " = Some 42 /\ Py.int "+7" = Some 7
  /\ Py.int "-5" = Some (-5) /\ Py.int "0" = Some 0 /\ Py.int "1_000" = Some 1000.
Proof. repeat split; reflexivity. Qed.

Example int_refuses_the_rest :
  Py.int "abc" = None /\ Py.int "" = None /\ Py.int "- 5" = None
  /\ Py.int "1__0" = None /\ Py.int "_1" = None /\ Py.int "1_" = None
  /\ Py.int "12.0" = None /\ Py.int "0x1F" = None /\ Py.int "+" = None.
Proof. repeat split; reflexivity. Qed.

(** Decimal digits and white space of other scripts count as Python counts
    them: Arabic-Indic digits, a no-break space and an ideographic space
    around the literal; the file separator is white space for [strip] and
    not for [int]. *)
Example int_reads_other_scripts :
  Py.int "١٢٣" = Some 123 /\ Py.int "-٥_٥" = Some (-55) /\ Py.int "５" = Some 5
  /\ Py.int (String "194" (String "160" "7")) = Some 7 /\ Py.int "7　" = Some 7
  /\ Py.int (String "028" "7") = None /\ Py.int "١٢٣é" = None.
Proof. repeat split; reflexivity. Qed.

Example strip_other_scripts :
  Py.strip "　" = "" /\ Py.strip (" key" +:+ String "194" (String "160" "")) = "key"
  /\ Py.strip (String "028" " a　b " +:+ String "194" (String "133" "")) = "a　b"
  /\ Py.strip " é " = "é".
Proof. repeat split; reflexivity. Qed.

Example strip_and_case :
  Py.strip "  a b  " = "a b" /\ Py.strip "   " = ""
  /\ Py.lower "PoST" = "post" /\ Py.upper "post" = "POST"
  /\ Py.str_of_int 500 = "500" /\ Py.str_of_int (-5) = "-5".
Proof. repeat split; reflexivity. Qed.

(** *** The upstream client *)

Lemma failure_detail_eq (response : Httpx.Response) :
  match Httpx.json response with
  | Decoded (PDict error_data) =>
      match default (PStr (Httpx.text response)) (error_data !! "detail") with
      | PList _ | PDict _ =>
          json_dumps None (default (PStr (Httpx.text response)) (error_data !! "detail"))
      | _ => py_str (default (PStr (Httpx.text response)) (error_data !! "detail"))
      end
  | _ => Httpx.text response
  end = failure_detail response.
Proof.
  unfold failure_detail.
  destruct (Httpx.json response) as [v|msg]; [|reflexivity].
  destruct v; try reflexivity.
  destruct (d !! "detail") as [v|]; [|reflexivity].
  destruct v; reflexivity.
Qed.

Lemma async_wren_call_eq method full_url json_data wren_api_key :
  async_wren_call method full_url json_data wren_api_key
  = if Py.str_in (Py.lower method) http_methods
    then MkIO (client_outcome method
                 (http_request (unary_call method full_url json_data wren_api_key)))
              [unary_call method full_url json_data wren_api_key]
    else MkIO (Raise (internal_error (no_client_method (Py.lower method)))) [].
Proof.
  unfold async_wren_call, try_except, mbind, IO_bind, client_call.
  fold (unary_call method full_url json_data wren_api_key).
  change (call_method (unary_call method full_url json_data wren_api_key))
    with (Py.lower method).
  destruct (Py.str_in (Py.lower method) http_methods); [|reflexivity].
  cbn [outcome calls].
  destruct (http_request _) as [response|e]; cbn [outcome calls lift client_outcome].
  - unfold raise_for_status.
    destruct (Httpx.is_success response); cbn [outcome calls].
    + destruct (_ || _); cbn [outcome calls mret IO_ret lift].
      * reflexivity.
      * unfold response_json.
        destruct (Httpx.json response); reflexivity.
    + unfold failure_message. rewrite <- failure_detail_eq. reflexivity.
  - destruct e; try reflexivity.
    unfold failure_message. rewrite <- failure_detail_eq. reflexivity.
Qed.

Lemma async_wren_call_calls method full_url json_data wren_api_key :
  calls (async_wren_call method full_url json_data wren_api_key)
  = if Py.str_in (Py.lower method) http_methods
    then [unary_call method full_url json_data wren_api_key] else [].
Proof.
  rewrite async_wren_call_eq. destruct (Py.str_in _ _); reflexivity.
Qed.

(** What the client was called for, when it made the call [c]. *)
Lemma async_wren_call_called method full_url json_data wren_api_key c :
  c ∈ calls (async_wren_call method full_url json_data wren_api_key) ->
  c = unary_call method full_url json_data wren_api_key
  /\ outcome (async_wren_call method full_url json_data wren_api_key)
     = client_outcome method (http_request c).
Proof.
  rewrite async_wren_call_eq.
  destruct (Py.str_in _ _); cbn [calls outcome].
  - intros ->%list_elem_of_singleton. split; reflexivity.
  - intros []%elem_of_nil.
Qed.

(** The route hands the unary relay a POST, for which the client has a
    method. *)
Lemma routed_call (request : Request) full_url json_data wren_api_key :
  calls (async_wren_call (method request) full_url json_data wren_api_key)
  = [unary_call (method request) full_url json_data wren_api_key].
Proof.
  rewrite async_wren_call_calls.
  destruct request as [m ->]. reflexivity.
Qed.

(** *** The validator *)

Lemma validate_eq wren_api_key project_id :
  validate_api_key_and_project wren_api_key project_id
  = MkIO (validate_outcome (http_request (validate_call wren_api_key project_id)))
         [validate_call wren_api_key project_id].
Proof.
  unfold validate_api_key_and_project, try_except, mbind, IO_bind, client_call.
  fold (validate_call wren_api_key project_id).
  change (Py.str_in (call_method (validate_call wren_api_key project_id)) http_methods)
    with true.
  cbn [outcome calls].
  destruct (http_request _) as [response|e]; cbn [outcome calls lift validate_outcome].
  - unfold raise_for_status.
    destruct (Httpx.is_success response); cbn [outcome calls lift].
    + unfold response_json. destruct (Httpx.json response); reflexivity.
    + unfold validate_failure. repeat (destruct (_ =? _); [reflexivity|]). reflexivity.
  - destruct e; try reflexivity.
    unfold validate_failure. repeat (destruct (_ =? _); [reflexivity|]). reflexivity.
Qed.

(** *** Validation and payload of the two relays *)

Lemma payload_eq (request_data : WrenRequest) (n : Z) :
  <["projectId" := PInt n]>
    (dict_update
       (<["text" := of_optional_str (text request_data)]>
          (<["question" := of_optional_str (text request_data)]> ∅))
       (additional_payload request_data))
  = upstream_payload request_data n.
Proof.
  unfold upstream_payload, dict_update.
  f_equal.
Qed.

Lemma handle_wren_query_eq request endpoint_path request_data wren_api_key :
  handle_wren_query request endpoint_path request_data wren_api_key
  = match validated request_data, request_data with
    | inr n, Some rd =>
        async_wren_call (method request) (WREN_BASE_URL +:+ "/" +:+ endpoint_path)
          (Some (upstream_payload rd n)) (Py.strip wren_api_key)
    | inl e, _ => raise e
    | inr _, None => raise no_body_error
    end.
Proof.
  unfold handle_wren_query, validated.
  destruct request_data as [rd|]; [|reflexivity].
  destruct (project_id rd) as [pid|]; [|reflexivity].
  destruct (_ || _); [reflexivity|].
  destruct (Py.int _) as [n|]; [|reflexivity].
  rewrite payload_eq. reflexivity.
Qed.

Lemma handle_wren_streaming_query_eq endpoint_path request_data wren_api_key :
  handle_wren_streaming_query endpoint_path request_data wren_api_key
  = match validated request_data, request_data with
    | inr n, Some rd =>
        mret {| sr_status_code := 200;
                media_type := "text/event-stream";
                body_iterator :=
                  stream_wren_response (WREN_BASE_URL +:+ "/" +:+ endpoint_path)
                    (upstream_payload rd n) (Py.strip wren_api_key) |}
    | inl e, _ => raise e
    | inr _, None => raise no_body_error
    end.
Proof.
  unfold handle_wren_streaming_query, validated.
  destruct request_data as [rd|]; [|reflexivity].
  destruct (project_id rd) as [pid|]; [|reflexivity].
  destruct (_ || _); [reflexivity|].
  destruct (Py.int _) as [n|]; [|reflexivity].
  rewrite payload_eq. reflexivity.
Qed.

Lemma validated_accept rd pid n :
  project_id rd = Some pid -> Py.int (Py.strip pid) = Some n ->
  validated (Some rd) = inr n.
Proof.
  intros Hpid Hint. unfold validated.
  rewrite Hpid, (int_strip_not_blank pid n Hint), Hint. reflexivity.
Qed.

Lemma validated_blank rd :
  project_id rd = None \/ (exists pid, project_id rd = Some pid /\ Py.strip pid = "") ->
  validated (Some rd) = inl required_error.
Proof.
  intros [Hnone|(pid & Hpid & Hblank)]; unfold validated.
  - rewrite Hnone. reflexivity.
  - rewrite Hpid, (blank_test_true pid Hblank). reflexivity.
Qed.

Lemma validated_not_integer rd pid :
  project_id rd = Some pid -> Py.strip pid <> "" -> Py.int (Py.strip pid) = None ->
  validated (Some rd) = inl integer_error.
Proof.
  intros Hpid Hne Hint. unfold validated.
  rewrite Hpid, (blank_test_false pid Hne), Hint. reflexivity.
Qed.

(** *** The streaming generator *)

Lemma stream_gen_calls url payload key :
  gen_calls (stream_wren_response url payload key) = [stream_call url payload key].
Proof.
  unfold stream_wren_response. fold (stream_call url payload key).
  destruct (match http_stream _ with Ok _ => _ | Raise _ => _ end) as [out [e|]];
    cbn [fst snd]; [destruct e|]; reflexivity.
Qed.

Lemma stream_never_raises url payload key :
  escaped (stream_wren_response url payload key) = None.
Proof.
  unfold stream_wren_response.
  destruct (match http_stream _ with Ok _ => _ | Raise _ => _ end) as [out [e|]];
    cbn [fst snd]; [destruct e|]; reflexivity.
Qed.

Lemma stream_forwards url payload key response :
  http_stream (stream_call url payload key) = Ok response ->
  Httpx.status_code response < 400 ->
  Httpx.fault response = None ->
  yielded (stream_wren_response url payload key) = Httpx.chunks response.
Proof.
  intros Hcall Hstatus Hfault.
  unfold stream_wren_response. fold (stream_call url payload key).
  rewrite Hcall.
  destruct (Z.leb_spec 400 (Httpx.status_code response)) as [Hge|_]; [lia|].
  rewrite Hfault. reflexivity.
Qed.

Lemma stream_fault_mid_stream url payload key response msg :
  http_stream (stream_call url payload key) = Ok response ->
  Httpx.status_code response < 400 ->
  Httpx.fault response = Some msg ->
  yielded (stream_wren_response url payload key)
  = (Httpx.chunks response ++ [sse_error ("Internal Server Error: " +:+ msg)])%list.
Proof.
  intros Hcall Hstatus Hfault.
  unfold stream_wren_response. fold (stream_call url payload key).
  rewrite Hcall.
  destruct (Z.leb_spec 400 (Httpx.status_code response)) as [Hge|_]; [lia|].
  rewrite Hfault. reflexivity.
Qed.

Lemma stream_error_status url payload key response :
  http_stream (stream_call url payload key) = Ok response ->
  400 <= Httpx.status_code response ->
  yielded (stream_wren_response url payload key)
  = [sse_error
       match Httpx.fault response with
       | Some msg => "Internal Server Error: " +:+ msg
       | None =>
           match json_loads (Httpx.text response) with
           | Decoded error_data => json_dumps (Some 2%nat) (PDict {["error" := error_data]})
           | DecodeError _ =>
               "{" +:+ dq +:+ "error" +:+ dq +:+ ": " +:+ dq +:+ Httpx.text response
               +:+ dq +:+ "}"
           end
       end].
Proof.
  intros Hcall Hstatus.
  unfold stream_wren_response. fold (stream_call url payload key).
  rewrite Hcall. unfold raise_for_status, Httpx.is_success.
  destruct (Z.leb_spec 400 (Httpx.status_code response)) as [_|Hlt]; [|lia].
  destruct (Httpx.fault response) as [msg|]; [reflexivity|].
  destruct (Z.leb_spec (Httpx.status_code response) 299) as [Hle|_]; [lia|].
  rewrite andb_false_r. cbn [fst snd app].
  destruct (json_loads _); reflexivity.
Qed.

(** *** The claims *)

(** C1.  When the project identifier of a request reads as the integer [n],
    both relays send upstream the union of [question] and [text] (both the
    request's text) with the extra fields, with [projectId] then set to [n]:
    the payload maps [projectId] to the integer [n] whatever the extra fields
    hold under that key, and every other key to the extra field of that name
    when there is one, else to the text.  The unary relay attaches the
    payload when its method is POST, PUT or PATCH (the route is POST). *)
Theorem C1_projectId_overrides_extra_fields
    (request : Request) (endpoint_path wren_api_key pid : string)
    (rd : WrenRequest) (n : Z) :
  project_id rd = Some pid ->
  Py.int (Py.strip pid) = Some n ->
  let base : gmap string pyval :=
    {["question" := of_optional_str (text rd); "text" := of_optional_str (text rd)]} in
  let p := <["projectId" := PInt n]> (additional_payload rd ∪ base) in
  p !! "projectId" = Some (PInt n)
  /\ (forall k : string, k <> "projectId" ->
       p !! k = match additional_payload rd !! k with
                | Some v => Some v
                | None => base !! k
                end)
  /\ (exists c,
        calls (handle_wren_query request endpoint_path (Some rd) wren_api_key) = [c]
        /\ call_json c = if Py.str_in (Py.upper (method request)) ["POST"; "PUT"; "PATCH"]
                         then Some p else None)
  /\ (exists c,
        served_calls (handle_wren_streaming_query endpoint_path (Some rd) wren_api_key) = [c]
        /\ call_json c = Some p).
Proof.
  intros Hpid Hint base p.
  pose proof (validated_accept rd pid n Hpid Hint) as Hv.
  split; [apply lookup_insert_eq|].
  split.
  { intros k Hk. unfold p.
    rewrite lookup_insert_ne by congruence.
    rewrite lookup_union.
    destruct (additional_payload rd !! k) as [v|]; destruct (base !! k); reflexivity. }
  split.
  - rewrite handle_wren_query_eq, Hv, routed_call.
    eexists. split; [reflexivity|]. reflexivity.
  - unfold served_calls.
    rewrite handle_wren_streaming_query_eq, Hv.
    cbn [calls outcome mret IO_ret body_iterator app].
    rewrite stream_gen_calls.
    eexists. split; reflexivity.
Qed.

(** C2.  When the streaming relay accepts a request and the upstream answers
    its call with a status of 400 or more, the relay's response has status
    200 and media type text/event-stream, its body never raises, and it
    consists of exactly one frame [event: error], [data: <d>], blank line.
    With the error body read, [d] is the serialization (indent 2) of
    [{"error": <parsed>}] when the body decodes as JSON and the text
    [{"error": "<body>"}] otherwise; when the body cannot be read, [d] is
    the text "Internal Server Error: " followed by the fault. *)
Theorem C2_error_status_yields_one_error_frame
    (endpoint_path wren_api_key : string) (request_data : option WrenRequest)
    (sr : StreamingResponse) (c : HttpCall) (response : Httpx.Response) :
  outcome (handle_wren_streaming_query endpoint_path request_data wren_api_key) = Ok sr ->
  c ∈ gen_calls (body_iterator sr) ->
  http_stream c = Ok response ->
  400 <= Httpx.status_code response ->
  sr_status_code sr = 200
  /\ media_type sr = "text/event-stream"
  /\ escaped (body_iterator sr) = None
  /\ yielded (body_iterator sr)
     = [ "event: error" +:+ nl +:+ "data: "
         +:+ match Httpx.fault response with
             | Some msg => "Internal Server Error: " +:+ msg
             | None =>
                 match json_loads (Httpx.text response) with
                 | Decoded error_data =>
                     json_dumps (Some 2%nat) (PDict {["error" := error_data]})
                 | DecodeError _ =>
                     "{" +:+ dq +:+ "error" +:+ dq +:+ ": " +:+ dq
                     +:+ Httpx.text response +:+ dq +:+ "}"
                 end
             end
         +:+ nl +:+ nl ].
Proof.
  rewrite handle_wren_streaming_query_eq.
  destruct (validated request_data) as [e|n]; [discriminate|].
  destruct request_data as [rd|]; [|discriminate].
  cbn [outcome mret IO_ret]. intros [= <-]. cbn [body_iterator sr_status_code media_type].
  rewrite stream_gen_calls. intros ->%list_elem_of_singleton Hcall Hstatus.
  split; [reflexivity|]. split; [reflexivity|].
  split; [apply stream_never_raises|].
  exact (stream_error_status _ _ _ response Hcall Hstatus).
Qed.

(** C3.  When the upstream answers the call of the unary relay with a status
    outside 200..299, the relay raises an [HTTPException] with that status
    and the detail "Wren API Request Failed (Method: M, Status: S): " followed
    by: the [detail] field of the JSON object the body decodes to, serialized
    as JSON when it is a dict or a list and through [str] otherwise; the raw
    text of the response when the body does not decode, does not decode to an
    object, or has no [detail] field. *)
Theorem C3_unary_failure_message
    (request : Request) (endpoint_path wren_api_key : string)
    (request_data : option WrenRequest) (c : HttpCall) (response : Httpx.Response) :
  c ∈ calls (handle_wren_query request endpoint_path request_data wren_api_key) ->
  http_request c = Ok response ->
  Httpx.status_code response < 200 \/ 299 < Httpx.status_code response ->
  outcome (handle_wren_query request endpoint_path request_data wren_api_key)
  = Raise (HTTPException (Httpx.status_code response)
             ("Wren API Request Failed (Method: " +:+ method request +:+ ", Status: "
              +:+ Py.str_of_int (Httpx.status_code response) +:+ "): "
              +:+ match Httpx.json response with
                  | Decoded (PDict error_data) =>
                      match error_data !! "detail" with
                      | Some (PDict d) => json_dumps None (PDict d)
                      | Some (PList l) => json_dumps None (PList l)
                      | Some v => py_str v
                      | None => Httpx.text response
                      end
                  | _ => Httpx.text response
                  end)).
Proof.
  rewrite handle_wren_query_eq.
  destruct (validated request_data) as [e|n]; [intros []%elem_of_nil|].
  destruct request_data as [rd|]; [|intros []%elem_of_nil].
  intros [-> ->]%async_wren_call_called Hcall Hstatus.
  rewrite Hcall. unfold client_outcome, Httpx.is_success.
  replace ((200 <=? Httpx.status_code response) && (Httpx.status_code response <=? 299))
    with false by (symmetry; apply andb_false_iff; lia).
  reflexivity.
Qed.

(** C4.  For a request with a body, both relays raise an [HTTPException]
    of status 400 whose detail starts with "project_id is required" when the
    project identifier is missing or blank, and one whose detail starts with
    "project_id must be a valid integer" when it is not blank and does not
    read as an integer; in both cases no upstream call is made. *)
Theorem C4_validation_errors_before_any_call
    (request : Request) (endpoint_path wren_api_key : string) (rd : WrenRequest) :
  let unary := handle_wren_query request endpoint_path (Some rd) wren_api_key in
  let streaming := handle_wren_streaming_query endpoint_path (Some rd) wren_api_key in
  let required := "project_id is required in the request body." in
  let invalid := "project_id must be a valid integer." in
  String.prefix "project_id is required" required = true
  /\ String.prefix "project_id must be a valid integer" invalid = true
  /\ (project_id rd = None \/ (exists pid, project_id rd = Some pid /\ Py.strip pid = "") ->
      outcome unary = Raise (HTTPException 400 required) /\ calls unary = []
      /\ outcome streaming = Raise (HTTPException 400 required)
      /\ served_calls streaming = [])
  /\ (forall pid, project_id rd = Some pid -> Py.strip pid <> "" ->
       Py.int (Py.strip pid) = None ->
       outcome unary = Raise (HTTPException 400 invalid) /\ calls unary = []
       /\ outcome streaming = Raise (HTTPException 400 invalid)
       /\ served_calls streaming = []).
Proof.
  intros unary streaming required invalid.
  unfold unary, streaming, required, invalid, served_calls.
  rewrite handle_wren_query_eq, handle_wren_streaming_query_eq.
  split; [reflexivity|]. split; [reflexivity|].
  split.
  - intros Hblank. rewrite (validated_blank rd Hblank).
    repeat split; reflexivity.
  - intros pid Hpid Hne Hint. rewrite (validated_not_integer rd pid Hpid Hne Hint).
    repeat split; reflexivity.
Qed.

(** C5, as amended.  In a request that carries a body, a project identifier
    that is absent or does not read as an integer is rejected by both relays
    with an [HTTPException] of status 400, and no upstream call is made.  (An
    identifier that reads as zero or as a negative integer is accepted.) *)
Theorem C5_non_integer_identifier_rejected
    (request : Request) (endpoint_path wren_api_key : string) (rd : WrenRequest) :
  project_id rd = None
  \/ (exists pid, project_id rd = Some pid /\ Py.int (Py.strip pid) = None) ->
  let unary := handle_wren_query request endpoint_path (Some rd) wren_api_key in
  let streaming := handle_wren_streaming_query endpoint_path (Some rd) wren_api_key in
  exists detail,
    outcome unary = Raise (HTTPException 400 detail) /\ calls unary = []
    /\ outcome streaming = Raise (HTTPException 400 detail)
    /\ served_calls streaming = [].
Proof.
  intros Hbad unary streaming. unfold unary, streaming, served_calls.
  rewrite handle_wren_query_eq, handle_wren_streaming_query_eq.
  destruct Hbad as [Hnone|(pid & Hpid & Hint)].
  - rewrite (validated_blank rd (or_introl Hnone)).
    eexists. repeat split; reflexivity.
  - destruct (Py.strip pid) as [|a t] eqn:Hs.
    + rewrite (validated_blank rd (or_intror (ex_intro _ pid (conj Hpid Hs)))).
      eexists. repeat split; reflexivity.
    + assert (Hne : Py.strip pid <> "") by (rewrite Hs; discriminate).
      rewrite <- Hs in Hint.
      rewrite (validated_not_integer rd pid Hpid Hne Hint).
      eexists. repeat split; reflexivity.
Qed.

(** C6.  When the upstream answers the call of the streaming generator with
    a status below 400 and its body arrives without a fault, the generator
    yields exactly the chunks received, in the order received, and ends
    without an exception. *)
Theorem C6_stream_forwards_chunks_verbatim
    (wren_full_url wren_api_key : string) (wren_payload : gmap string pyval)
    (c : HttpCall) (response : Httpx.Response) :
  c ∈ gen_calls (stream_wren_response wren_full_url wren_payload wren_api_key) ->
  http_stream c = Ok response ->
  Httpx.status_code response < 400 ->
  Httpx.fault response = None ->
  yielded (stream_wren_response wren_full_url wren_payload wren_api_key)
  = Httpx.chunks response
  /\ escaped (stream_wren_response wren_full_url wren_payload wren_api_key) = None.
Proof.
  rewrite stream_gen_calls. intros ->%list_elem_of_singleton Hcall Hstatus Hfault.
  split.
  - exact (stream_forwards _ _ _ response Hcall Hstatus Hfault).
  - apply stream_never_raises.
Qed.

(** C7.  When the upstream answers the validator's GET: 401, 403 and 404
    give an [HTTPException] of the same status with the message of that
    case; any other status outside 200..299 gives an [HTTPException] with
    the upstream's status and the upstream's body text after a fixed prefix;
    a status in 200..299 whose body decodes as JSON gives that value. *)
Theorem C7_validator_status_mapping
    (wren_api_key project_id : string) (c : HttpCall) (response : Httpx.Response) :
  c ∈ calls (validate_api_key_and_project wren_api_key project_id) ->
  http_request c = Ok response ->
  let status := Httpx.status_code response in
  let result := outcome (validate_api_key_and_project wren_api_key project_id) in
  (status = 401 -> result = Raise (HTTPException 401 "API Key 驗證失敗或無效。"))
  /\ (status = 403 -> result = Raise (HTTPException 403 "API Key 無權限訪問此 Project ID。"))
  /\ (status = 404 -> result = Raise (HTTPException 404 "Project ID 不存在或 Key 無法存取。"))
  /\ (status < 200 \/ 299 < status -> status <> 401 -> status <> 403 -> status <> 404 ->
      result = Raise (HTTPException status ("Wren API 請求失敗: " +:+ Httpx.text response)))
  /\ (200 <= status <= 299 ->
      forall v, Httpx.json response = Decoded v -> result = Ok v).
Proof.
  rewrite validate_eq. cbn [calls outcome].
  intros ->%list_elem_of_singleton Hcall.
  rewrite Hcall.
  unfold validate_outcome, validate_failure, Httpx.is_success.
  repeat split.
  - intros ->. reflexivity.
  - intros ->. reflexivity.
  - intros ->. reflexivity.
  - intros Hout H401 H403 H404.
    replace ((200 <=? Httpx.status_code response) && (Httpx.status_code response <=? 299))
      with false by (symmetry; apply andb_false_iff; lia).
    destruct (Z.eqb_spec (Httpx.status_code response) 401); [contradiction|].
    destruct (Z.eqb_spec (Httpx.status_code response) 403); [contradiction|].
    destruct (Z.eqb_spec (Httpx.status_code response) 404); [contradiction|].
    reflexivity.
  - intros Hin v Hjson.
    replace ((200 <=? Httpx.status_code response) && (Httpx.status_code response <=? 299))
      with true by (symmetry; apply andb_true_iff; lia).
    rewrite Hjson. reflexivity.
Qed.

(** C8.  When the upstream answers the call of [async_wren_call] with status
    204, or with a status in 200..299 and an empty body, the result is the
    dictionary with the single key [message] and the value "Operation
    successful, no content returned."; the body is not decoded. *)
Theorem C8_no_content_sentinel
    (method full_url wren_api_key : string) (json_data : option (gmap string pyval))
    (c : HttpCall) (response : Httpx.Response) :
  c ∈ calls (async_wren_call method full_url json_data wren_api_key) ->
  http_request c = Ok response ->
  Httpx.status_code response = 204
  \/ (200 <= Httpx.status_code response <= 299 /\ Httpx.content response = "") ->
  outcome (async_wren_call method full_url json_data wren_api_key)
  = Ok (PDict {["message" := PStr "Operation successful, no content returned."]}).
Proof.
  intros [-> ->]%async_wren_call_called Hcall Hcase.
  rewrite Hcall. unfold client_outcome, Httpx.is_success.
  replace ((200 <=? Httpx.status_code response) && (Httpx.status_code response <=? 299))
    with true by (symmetry; apply andb_true_iff; lia).
  destruct Hcase as [-> | [_ ->]]; [reflexivity|].
  rewrite orb_true_r. reflexivity.
Qed.

(** C9.  On every request the two relays validate alike: either both raise
    the same exception without any upstream call, or both go on to exactly
    one upstream call, to the same URL and with the same payload (which the
    unary relay attaches when its method is POST, PUT or PATCH), the
    streaming relay returning its response. *)
Theorem C9_streaming_validation_equals_unary
    (request : Request) (endpoint_path wren_api_key : string)
    (request_data : option WrenRequest) :
  let unary := handle_wren_query request endpoint_path request_data wren_api_key in
  let streaming := handle_wren_streaming_query endpoint_path request_data wren_api_key in
  (exists e,
     outcome unary = Raise e /\ calls unary = []
     /\ outcome streaming = Raise e /\ served_calls streaming = [])
  \/ (exists (p : gmap string pyval) (cu cs : HttpCall) (sr : StreamingResponse),
        calls unary = [cu]
        /\ outcome streaming = Ok sr /\ served_calls streaming = [cs]
        /\ call_url cu = call_url cs
        /\ call_headers cu = call_headers cs
        /\ call_json cs = Some p
        /\ call_json cu = if Py.str_in (Py.upper (method request)) ["POST"; "PUT"; "PATCH"]
                          then Some p else None).
Proof.
  intros unary streaming. unfold unary, streaming, served_calls.
  rewrite handle_wren_query_eq, handle_wren_streaming_query_eq.
  destruct (validated request_data) as [e|n].
  - left. exists e. repeat split; reflexivity.
  - destruct request_data as [rd|].
    + right. rewrite routed_call.
      cbn [calls outcome mret IO_ret body_iterator app].
      rewrite stream_gen_calls.
      do 4 eexists. repeat split; reflexivity.
    + left. eexists. repeat split; reflexivity.
Qed.

(** C10.  A request without a body reaches both handlers as [None]; reading
    its [project_id] raises [AttributeError] before any validation, which
    FastAPI answers with status 500, and no upstream call is made.  A body
    whose [project_id] is absent gets the validation error of status 400
    instead. *)
Theorem C10_missing_body_is_an_internal_fault
    (request : Request) (endpoint_path wren_api_key : string)
    (text : option string) (extra : gmap string pyval) :
  let fault := AttributeError "'NoneType' object has no attribute 'project_id'" in
  let unary := handle_wren_query request endpoint_path None wren_api_key in
  let streaming := handle_wren_streaming_query endpoint_path None wren_api_key in
  let no_id := {| project_id := None; text := text; additional_payload := extra |} in
  outcome unary = Raise fault /\ http_status (outcome unary) = 500 /\ calls unary = []
  /\ outcome streaming = Raise fault /\ http_status (outcome streaming) = 500
  /\ served_calls streaming = []
  /\ http_status (outcome (handle_wren_query request endpoint_path (Some no_id)
                             wren_api_key)) = 400
  /\ http_status (outcome (handle_wren_streaming_query endpoint_path (Some no_id)
                             wren_api_key)) = 400.
Proof.
  repeat split; reflexivity.
Qed.

End Properties.

(** ** The claims on concrete requests *)

Import Examples.

(** A request for project 11237 whose extra fields carry a [projectId] of
    their own: the payload holds the integer. *)
Lemma C1_witness :
  Py.int (Py.strip "11237") = Some 11237
  /\ exists c,
       served_calls (@handle_wren_streaming_query (up ok_empty) R
                       "stream/ask" (Some with_extra) "key") = [c]
       /\ (call_json c ≫= lookup "projectId") = Some (PInt 11237)
       /\ (call_json c ≫= lookup "limit") = Some (PInt 5)
       /\ (call_json c ≫= lookup "question") = Some (PStr "hi").
Proof.
  split; [reflexivity|].
  destruct (@C1_projectId_overrides_extra_fields (up ok_empty) R
              Demo.post "stream/ask" "key" "11237" with_extra 11237 eq_refl eq_refl)
    as (_ & _ & _ & c & Hcalls & Hjson).
  exists c. split; [exact Hcalls|].
  rewrite Hjson. repeat split; vm_compute; reflexivity.
Defined.

(** The upstream answers 500 with the body [{"detail":"boom"}]. *)
Lemma C2_witness :
  exists sr,
    outcome (@handle_wren_streaming_query (up failing) R "stream/ask"
               (Some plain) "key") = Ok sr
    /\ sr_status_code sr = 200
    /\ media_type sr = "text/event-stream"
    /\ yielded (body_iterator sr)
       = [ "event: error" +:+ nl
           +:+ "data: {" +:+ nl
           +:+ "  " +:+ dq +:+ "error" +:+ dq +:+ ": {" +:+ nl
           +:+ "    " +:+ dq +:+ "detail" +:+ dq +:+ ": " +:+ dq +:+ "boom" +:+ dq +:+ nl
           +:+ "  }" +:+ nl
           +:+ "}" +:+ nl +:+ nl ].
Proof.
  eexists. split; [reflexivity|].
  destruct (@C2_error_status_yields_one_error_frame (up failing) R
              "stream/ask" "key" (Some plain) _
              (stream_call (url "stream/ask") (upstream_payload plain 11237) "key")
              failing eq_refl)
    as (Hstatus & Hmedia & _ & Hyielded).
  - vm_compute. apply list_elem_of_here.
  - reflexivity.
  - vm_compute. discriminate.
  - split; [exact Hstatus|]. split; [exact Hmedia|].
    rewrite Hyielded. vm_compute. reflexivity.
Defined.

Lemma C3_witness :
  outcome (@handle_wren_query (up failing) R Demo.post "generate_sql" (Some plain) "key")
  = Raise (HTTPException 500 "Wren API Request Failed (Method: POST, Status: 500): boom").
Proof.
  rewrite (@C3_unary_failure_message (up failing) R Demo.post "generate_sql"
             "key" (Some plain)
             (unary_call "POST" (url "generate_sql")
                (Some (upstream_payload plain 11237)) "key")
             failing).
  - vm_compute. reflexivity.
  - vm_compute. apply list_elem_of_here.
  - reflexivity.
  - right. vm_compute. reflexivity.
Defined.

Lemma C4_witness :
  Py.strip "   " = "" /\ Py.int (Py.strip "abc") = None
  /\ calls (@handle_wren_query (up ok_empty) R Demo.post "generate_sql"
              (Some blank) "key") = []
  /\ outcome (@handle_wren_streaming_query (up ok_empty) R "generate_sql"
                (Some blank) "key")
     = Raise (HTTPException 400 "project_id is required in the request body.")
  /\ outcome (@handle_wren_query (up ok_empty) R Demo.post "generate_sql"
                (Some not_a_number) "key")
     = Raise (HTTPException 400 "project_id must be a valid integer.")
  /\ served_calls (@handle_wren_streaming_query (up ok_empty) R "generate_sql"
                     (Some not_a_number) "key") = [].
Proof.
  split; [reflexivity|]. split; [reflexivity|].
  destruct (@C4_validation_errors_before_any_call (up ok_empty) R Demo.post
              "generate_sql" "key" blank) as (_ & _ & Hblank & _).
  destruct (Hblank (or_intror (ex_intro _ "   " (conj eq_refl eq_refl))))
    as (_ & Hcalls & Hstream & _).
  destruct (@C4_validation_errors_before_any_call (up ok_empty) R Demo.post
              "generate_sql" "key" not_a_number) as (_ & _ & _ & Hnan).
  destruct (Hnan "abc" eq_refl ltac:(discriminate) eq_refl)
    as (Hunary & _ & _ & Hserved).
  repeat split; assumption.
Defined.

(** The identifier "-5" is not a positive integer, yet both relays accept
    it: the unary relay returns the upstream's answer, and both send the
    payload upstream with [projectId] set to -5. *)
Lemma C5_counterexample :
  Py.int (Py.strip "-5") = Some (-5)
  /\ (forall n, Py.int (Py.strip "-5") = Some n -> n <= 0)
  /\ outcome (@handle_wren_query (up ok_empty) R Demo.post "generate_sql"
                (Some negative) "key") = Ok (PDict ∅)
  /\ map (fun c => call_json c ≫= lookup "projectId")
         (calls (@handle_wren_query (up ok_empty) R Demo.post "generate_sql"
                   (Some negative) "key"))
     = [Some (PInt (-5))]
  /\ map (fun c => call_json c ≫= lookup "projectId")
         (served_calls (@handle_wren_streaming_query (up ok_empty) R "stream/ask"
                          (Some negative) "key"))
     = [Some (PInt (-5))].
Proof.
  split; [reflexivity|].
  split; [intros n [= <-]; discriminate|].
  repeat split; vm_compute; reflexivity.
Qed.

Lemma C5_witness :
  Py.int (Py.strip "abc") = None
  /\ exists detail,
       outcome (@handle_wren_query (up ok_empty) R Demo.post "generate_sql"
                  (Some not_a_number) "key") = Raise (HTTPException 400 detail)
       /\ served_calls (@handle_wren_streaming_query (up ok_empty) R "generate_sql"
                          (Some not_a_number) "key") = [].
Proof.
  split; [reflexivity|].
  destruct (@C5_non_integer_identifier_rejected (up ok_empty) R Demo.post
              "generate_sql" "key" not_a_number
              (or_intror (ex_intro _ "abc" (conj eq_refl eq_refl))))
    as (detail & Hunary & _ & _ & Hserved).
  exists detail. split; assumption.
Defined.

(** Three chunks, then a normal close. *)
Lemma C6_witness :
  yielded (@stream_wren_response (up three_chunks) R (url "stream/ask")
             (upstream_payload plain 11237) "key") = ["a"; "b"; "c"]
  /\ escaped (@stream_wren_response (up three_chunks) R (url "stream/ask")
                (upstream_payload plain 11237) "key") = None.
Proof.
  apply (@C6_stream_forwards_chunks_verbatim (up three_chunks) R (url "stream/ask")
           "key" (upstream_payload plain 11237)
           (stream_call (url "stream/ask") (upstream_payload plain 11237) "key")
           three_chunks).
  - vm_compute. apply list_elem_of_here.
  - reflexivity.
  - vm_compute. reflexivity.
  - reflexivity.
Defined.

Lemma C7_witness :
  outcome (@validate_api_key_and_project (up (Demo.response 401 "" (DecodeError "")))
             R "key" "11237")
  = Raise (HTTPException 401 "API Key 驗證失敗或無效。").
Proof.
  apply (@C7_validator_status_mapping (up (Demo.response 401 "" (DecodeError "")))
           R "key" "11237" (validate_call "key" "11237")
           (Demo.response 401 "" (DecodeError ""))).
  - vm_compute. apply list_elem_of_here.
  - reflexivity.
  - reflexivity.
Defined.

Lemma C8_witness :
  outcome (@async_wren_call (up (Demo.response 204 "" (DecodeError "Expecting value")))
             R "POST" (url "generate_sql") (Some (upstream_payload plain 11237)) "key")
  = Ok (PDict {["message" := PStr "Operation successful, no content returned."]}).
Proof.
  apply (@C8_no_content_sentinel (up (Demo.response 204 "" (DecodeError "Expecting value")))
           R "POST" (url "generate_sql") "key" (Some (upstream_payload plain 11237))
           (unary_call "POST" (url "generate_sql")
              (Some (upstream_payload plain 11237)) "key")
           (Demo.response 204 "" (DecodeError "Expecting value"))).
  - vm_compute. apply list_elem_of_here.
  - reflexivity.
  - left. reflexivity.
Defined.

(** ** Further properties of the handlers *)

(** A result that is a value or an [HTTPException]. *)
Definition http_only {A} (r : Result A) : Prop :=
  (exists a, r = Ok a) \/ (exists status detail, r = Raise (HTTPException status detail)).

(** The request with its identifier stripped of surrounding white space. *)
Definition with_stripped_id (rd : WrenRequest) : WrenRequest :=
  {| project_id := Py.strip <$> project_id rd;
     text := text rd;
     additional_payload := additional_payload rd |}.

Section Further.
Context {upstream : Upstream} {runtime : Runtime}.

(** *** White space *)

Section Skip.
Variable p1 : ascii -> bool.
Variable p2 : ascii -> ascii -> bool.
Variable p3 : ascii -> ascii -> ascii -> bool.

(** The bytes start with no character that [p1], [p2], [p3] recognise. *)
Definition clear (l : list ascii) : bool :=
  match l with
  | [] => true
  | b0 :: r0 =>
      negb (p1 b0)
      && match r0 with
         | [] => true
         | b1 :: r1 =>
             negb (p2 b0 b1)
             && match r1 with
                | [] => true
                | b2 :: _ => negb (p3 b0 b1 b2)
                end
         end
  end.

Lemma skip_clear (l : list ascii) : clear l = true -> Py.skip p1 p2 p3 l = l.
Proof.
  destruct l as [|b0 [|b1 [|b2 r2]]]; cbn [clear Py.skip]; [reflexivity|..].
  - destruct (p1 b0); [discriminate|reflexivity].
  - destruct (p1 b0); [discriminate|]. destruct (p2 b0 b1); [discriminate|reflexivity].
  - destruct (p1 b0); [discriminate|]. destruct (p2 b0 b1); [discriminate|].
    destruct (p3 b0 b1 b2); [discriminate|reflexivity].
Qed.

Lemma clear_skip_bounded (n : nat) :
  forall l, (length l <= n)%nat -> clear (Py.skip p1 p2 p3 l) = true.
Proof.
  induction n as [|n IH]; intros l Hlen.
  - destruct l; [reflexivity|cbn [length] in Hlen; lia].
  - destruct l as [|b0 r0]; [reflexivity|].
    cbn [length] in Hlen. cbn [Py.skip].
    destruct (p1 b0) eqn:H1; [apply IH; lia|].
    destruct r0 as [|b1 r1]; [cbn [clear]; rewrite H1; reflexivity|].
    cbn [length] in Hlen.
    destruct (p2 b0 b1) eqn:H2; [apply IH; lia|].
    destruct r1 as [|b2 r2]; [cbn [clear]; rewrite H1, H2; reflexivity|].
    cbn [length] in Hlen.
    destruct (p3 b0 b1 b2) eqn:H3; [apply IH; lia|].
    cbn [clear]. rewrite H1, H2, H3. reflexivity.
Qed.

Lemma clear_skip (l : list ascii) : clear (Py.skip p1 p2 p3 l) = true.
Proof. exact (clear_skip_bounded (length l) l (le_n _)). Qed.

Lemma skip_idempotent (l : list ascii) :
  Py.skip p1 p2 p3 (Py.skip p1 p2 p3 l) = Py.skip p1 p2 p3 l.
Proof. apply skip_clear, clear_skip. Qed.

Lemma skip_suffix_bounded (n : nat) :
  forall l, (length l <= n)%nat -> exists w, l = (w ++ Py.skip p1 p2 p3 l)%list.
Proof.
  induction n as [|n IH]; intros l Hlen.
  - destruct l; [exists []; reflexivity|cbn [length] in Hlen; lia].
  - destruct l as [|b0 r0]; [exists []; reflexivity|].
    cbn [length] in Hlen. cbn [Py.skip].
    destruct (p1 b0).
    { destruct (IH r0) as [w Hw]; [lia|]. exists (b0 :: w). cbn [app]. congruence. }
    destruct r0 as [|b1 r1]; [exists []; reflexivity|].
    cbn [length] in Hlen.
    destruct (p2 b0 b1).
    { destruct (IH r1) as [w Hw]; [lia|]. exists (b0 :: b1 :: w). cbn [app]. congruence. }
    destruct r1 as [|b2 r2]; [exists []; reflexivity|].
    cbn [length] in Hlen.
    destruct (p3 b0 b1 b2); [|exists []; reflexivity].
    destruct (IH r2) as [w Hw]; [lia|]. exists (b0 :: b1 :: b2 :: w). cbn [app]. congruence.
Qed.

Lemma skip_suffix (l : list ascii) : exists w, l = (w ++ Py.skip p1 p2 p3 l)%list.
Proof. exact (skip_suffix_bounded (length l) l (le_n _)). Qed.

Lemma clear_prefix (x y : list ascii) : clear (x ++ y) = true -> clear x = true.
Proof.
  destruct x as [|b0 [|b1 [|b2 r2]]]; cbn [clear app]; [reflexivity|..].
  - intros [H1 _]%andb_prop. rewrite H1. reflexivity.
  - intros [H1 [H2 _]%andb_prop]%andb_prop. rewrite H1, H2. reflexivity.
  - intros Hc. exact Hc.
Qed.

End Skip.

Lemma rstrip_bytes_prefix (l : list ascii) : exists w, l = (Py.rstrip_bytes l ++ w)%list.
Proof.
  unfold Py.rstrip_bytes.
  destruct (skip_suffix Py.space1 (fun b1 b0 => Py.space2 b0 b1)
              (fun b2 b1 b0 => Py.space3 b0 b1 b2) (rev l)) as [w Hw].
  exists (rev w).
  rewrite <- rev_app_distr, <- Hw, rev_involutive. reflexivity.
Qed.

Lemma rstrip_bytes_idempotent (l : list ascii) :
  Py.rstrip_bytes (Py.rstrip_bytes l) = Py.rstrip_bytes l.
Proof.
  unfold Py.rstrip_bytes. rewrite rev_involutive, skip_idempotent. reflexivity.
Qed.

Lemma strip_bytes_idempotent (l : list ascii) :
  Py.rstrip_bytes (Py.lstrip_bytes (Py.rstrip_bytes (Py.lstrip_bytes l)))
  = Py.rstrip_bytes (Py.lstrip_bytes l).
Proof.
  assert (Hl : Py.lstrip_bytes (Py.rstrip_bytes (Py.lstrip_bytes l))
               = Py.rstrip_bytes (Py.lstrip_bytes l)).
  { apply skip_clear.
    destruct (rstrip_bytes_prefix (Py.lstrip_bytes l)) as [w Hw].
    apply (clear_prefix _ _ _ _ w). rewrite <- Hw. apply clear_skip. }
  rewrite Hl. apply rstrip_bytes_idempotent.
Qed.

Lemma strip_idempotent (s : string) : Py.strip (Py.strip s) = Py.strip s.
Proof.
  unfold Py.strip.
  rewrite list_ascii_of_string_of_list_ascii, strip_bytes_idempotent. reflexivity.
Qed.

Lemma blank_test_strip (pid : string) :
  ((pid =? "")%string || (Py.strip pid =? "")%string) = (Py.strip pid =? "")%string.
Proof.
  destruct pid as [|c r]; reflexivity.
Qed.

Lemma validated_stripped (rd : WrenRequest) :
  validated (Some (with_stripped_id rd)) = validated (Some rd).
Proof.
  unfold validated, with_stripped_id. cbn [project_id].
  destruct (project_id rd) as [pid|]; [|reflexivity].
  cbn [fmap option_fmap option_map].
  rewrite !blank_test_strip, !strip_idempotent. reflexivity.
Qed.

(** *** The upstream client *)

(** X1.  Whatever the upstream does, [async_wren_call], the validator and
    the unary relay on a request with a body return a value or raise an
    [HTTPException]: no other exception leaves them. *)
Theorem X1_unary_paths_raise_only_HTTPException
    (request : Request) (method full_url endpoint_path wren_api_key pid : string)
    (json_data : option (gmap string pyval)) (rd : WrenRequest) :
  http_only (outcome (async_wren_call method full_url json_data wren_api_key))
  /\ http_only (outcome (validate_api_key_and_project wren_api_key pid))
  /\ http_only (outcome (handle_wren_query request endpoint_path (Some rd) wren_api_key)).
Proof.
  assert (Hclient : forall m u j k, http_only (outcome (async_wren_call m u j k))).
  { intros m u j k. rewrite async_wren_call_eq.
    unfold client_outcome, internal_error, http_only.
    destruct (Py.str_in _ _); cbn [outcome]; [|eauto].
    destruct (http_request _) as [response|e].
    - destruct (Httpx.is_success response); [|eauto].
      destruct (_ || _); [eauto|].
      destruct (Httpx.json response); eauto.
    - destruct e; eauto. }
  split; [apply Hclient|]. split.
  - rewrite validate_eq. cbn [outcome].
    unfold validate_outcome, validate_failure, internal_error, http_only.
    destruct (http_request _) as [response|e].
    + destruct (Httpx.is_success response).
      * destruct (Httpx.json response); eauto.
      * repeat (destruct (_ =? _); [eauto|]). eauto.
    + destruct e; eauto.
      repeat (destruct (_ =? _); [eauto|]). eauto.
  - rewrite handle_wren_query_eq.
    destruct (validated (Some rd)) as [e|n] eqn:Hv; [|apply Hclient].
    unfold validated, required_error, integer_error in Hv.
    destruct (project_id rd) as [id|].
    + destruct (_ || _); [injection Hv as <-; right; eauto|].
      destruct (Py.int _); [discriminate|]. injection Hv as <-. right. eauto.
    + injection Hv as <-. right. eauto.
Qed.

(** X2.  When the call of [async_wren_call] fails with anything but an
    [HTTPStatusError] (a timeout, a refused connection), the result is an
    [HTTPException] of status 500 whose detail is the fixed prefix followed
    by the text of the exception. *)
Theorem X2_client_transport_failure_is_500
    (method full_url wren_api_key : string) (json_data : option (gmap string pyval))
    (c : HttpCall) (e : exn) :
  c ∈ calls (async_wren_call method full_url json_data wren_api_key) ->
  http_request c = Raise e ->
  (forall msg response, e <> HTTPStatusError msg response) ->
  outcome (async_wren_call method full_url json_data wren_api_key)
  = Raise (HTTPException 500 ("內部伺服器錯誤: " +:+ exn_str e)).
Proof.
  intros [-> ->]%async_wren_call_called Hcall Hnot.
  rewrite Hcall. unfold client_outcome.
  destruct e; try reflexivity.
  exfalso. exact (Hnot _ _ eq_refl).
Qed.

(** X3.  On a 2xx answer other than 204 with a body that is not empty,
    [async_wren_call] returns what the body decodes to, unchanged; when the
    body does not decode, the result is an [HTTPException] of status 500
    carrying the decoder's message, although the upstream reported success. *)
Theorem X3_client_success_body
    (method full_url wren_api_key : string) (json_data : option (gmap string pyval))
    (c : HttpCall) (response : Httpx.Response) :
  c ∈ calls (async_wren_call method full_url json_data wren_api_key) ->
  http_request c = Ok response ->
  200 <= Httpx.status_code response <= 299 ->
  Httpx.status_code response <> 204 ->
  Httpx.content response <> "" ->
  outcome (async_wren_call method full_url json_data wren_api_key)
  = match Httpx.json response with
    | Decoded v => Ok v
    | DecodeError msg => Raise (HTTPException 500 ("內部伺服器錯誤: " +:+ msg))
    end.
Proof.
  intros [-> ->]%async_wren_call_called Hcall Hstatus H204 Hcontent.
  rewrite Hcall. unfold client_outcome, Httpx.is_success.
  replace ((200 <=? Httpx.status_code response) && (Httpx.status_code response <=? 299))
    with true by (symmetry; apply andb_true_iff; lia).
  replace (Httpx.status_code response =? 204) with false by (symmetry; lia).
  replace (Httpx.content response =? "")%string with false
    by (symmetry; apply String.eqb_neq; exact Hcontent).
  reflexivity.
Qed.

(** X4.  When the method in lower case is one of the client's (get,
    options, head, post, put, patch, delete), [async_wren_call] makes exactly
    one call, whatever the upstream answers (it never retries): with that
    method, the URL as given, the bearer credential and the JSON content type
    in the headers, a timeout of 30 seconds, and the JSON body attached
    exactly when the method in upper case is POST, PUT or PATCH.  For any
    other method it makes no call and raises an [HTTPException] of status
    500. *)
Theorem X4_client_makes_one_call
    (method full_url wren_api_key : string) (json_data : option (gmap string pyval)) :
  if Py.str_in (Py.lower method)
       ["get"; "options"; "head"; "post"; "put"; "patch"; "delete"]
  then
    exists c,
      calls (async_wren_call method full_url json_data wren_api_key) = [c]
      /\ call_method c = Py.lower method
      /\ call_url c = full_url
      /\ call_headers c !! "Authorization" = Some ("Bearer " +:+ wren_api_key)
      /\ call_headers c !! "Content-Type" = Some "application/json"
      /\ call_timeout c = 30
      /\ call_json c = if Py.str_in (Py.upper method) ["POST"; "PUT"; "PATCH"]
                       then json_data else None
  else
    calls (async_wren_call method full_url json_data wren_api_key) = []
    /\ exists detail,
         outcome (async_wren_call method full_url json_data wren_api_key)
         = Raise (HTTPException 500 detail).
Proof.
  rewrite async_wren_call_eq. fold http_methods.
  destruct (Py.str_in (Py.lower method) http_methods); cbn [calls outcome].
  - eexists. split; [reflexivity|]. repeat split.
    unfold unary_call. cbn [call_json].
    destruct json_data; [reflexivity|].
    destruct (Py.str_in _ _); reflexivity.
  - split; [reflexivity|]. eexists. reflexivity.
Qed.

(** *** The relays *)

(** X5.  For a request whose identifier reads as an integer, each relay
    makes exactly one upstream call, to the base URL followed by a slash and
    the endpoint path as given, with the credential stripped of surrounding
    white space behind "Bearer ": the unary relay with its request's method
    in lower case and a timeout of 30 seconds, the streaming relay with POST
    and a timeout of 300 seconds. *)
Theorem X5_relay_calls
    (request : Request) (endpoint_path wren_api_key pid : string)
    (rd : WrenRequest) (n : Z) :
  project_id rd = Some pid ->
  Py.int (Py.strip pid) = Some n ->
  (exists c,
     calls (handle_wren_query request endpoint_path (Some rd) wren_api_key) = [c]
     /\ call_method c = Py.lower (method request)
     /\ call_url c = "https://cloud.getwren.ai/api/v1/" +:+ endpoint_path
     /\ call_headers c !! "Authorization" = Some ("Bearer " +:+ Py.strip wren_api_key)
     /\ call_timeout c = 30)
  /\ (exists c,
        served_calls (handle_wren_streaming_query endpoint_path (Some rd) wren_api_key)
        = [c]
        /\ call_method c = "POST"
        /\ call_url c = "https://cloud.getwren.ai/api/v1/" +:+ endpoint_path
        /\ call_headers c !! "Authorization" = Some ("Bearer " +:+ Py.strip wren_api_key)
        /\ call_timeout c = 300).
Proof.
  intros Hpid Hint.
  pose proof (validated_accept rd pid n Hpid Hint) as Hv.
  split.
  - rewrite handle_wren_query_eq, Hv, routed_call.
    eexists. repeat split.
  - unfold served_calls. rewrite handle_wren_streaming_query_eq, Hv.
    cbn [calls outcome mret IO_ret body_iterator app].
    rewrite stream_gen_calls. eexists. repeat split.
Qed.

(** X6.  White space around the project identifier and around the
    credential changes nothing: each relay and the validator give the same
    result, with the same upstream calls, as on the stripped values. *)
Theorem X6_surrounding_white_space_is_ignored
    (request : Request) (endpoint_path wren_api_key pid : string) (rd : WrenRequest) :
  handle_wren_query request endpoint_path (Some rd) wren_api_key
  = handle_wren_query request endpoint_path (Some (with_stripped_id rd))
      (Py.strip wren_api_key)
  /\ handle_wren_streaming_query endpoint_path (Some rd) wren_api_key
     = handle_wren_streaming_query endpoint_path (Some (with_stripped_id rd))
         (Py.strip wren_api_key)
  /\ validate_api_key_and_project wren_api_key pid
     = validate_api_key_and_project (Py.strip wren_api_key) (Py.strip pid).
Proof.
  split; [|split].
  - rewrite !handle_wren_query_eq, validated_stripped, strip_idempotent. reflexivity.
  - rewrite !handle_wren_streaming_query_eq, validated_stripped, strip_idempotent.
    reflexivity.
  - rewrite !validate_eq. unfold validate_call. rewrite !strip_idempotent. reflexivity.
Qed.

(** X7.  In the validator, a call that fails with anything but an
    [HTTPStatusError], and a 2xx answer whose body does not decode as JSON,
    both give an [HTTPException] of status 500 with the fixed prefix followed
    by the text of the failure. *)
Theorem X7_validator_internal_errors
    (wren_api_key pid : string) (c : HttpCall) :
  c ∈ calls (validate_api_key_and_project wren_api_key pid) ->
  (forall e, http_request c = Raise e ->
     (forall msg response, e <> HTTPStatusError msg response) ->
     outcome (validate_api_key_and_project wren_api_key pid)
     = Raise (HTTPException 500 ("內部伺服器錯誤: " +:+ exn_str e)))
  /\ (forall response msg, http_request c = Ok response ->
       200 <= Httpx.status_code response <= 299 ->
       Httpx.json response = DecodeError msg ->
       outcome (validate_api_key_and_project wren_api_key pid)
       = Raise (HTTPException 500 ("內部伺服器錯誤: " +:+ msg))).
Proof.
  rewrite validate_eq. cbn [calls outcome].
  intros ->%list_elem_of_singleton. split.
  - intros e Hcall Hnot. rewrite Hcall. unfold validate_outcome.
    destruct e; try reflexivity.
    exfalso. exact (Hnot _ _ eq_refl).
  - intros response msg Hcall Hstatus Hjson. rewrite Hcall.
    unfold validate_outcome, Httpx.is_success.
    replace ((200 <=? Httpx.status_code response) && (Httpx.status_code response <=? 299))
      with true by (symmetry; apply andb_true_iff; lia).
    rewrite Hjson. reflexivity.
Qed.

(** X8.  Whatever the upstream answers, the validator makes exactly one
    call: a GET without body on the project's resource, the identifier
    stripped of surrounding white space, with the stripped credential behind
    "Bearer " and a timeout of 10 seconds. *)
Theorem X8_validator_makes_one_call (wren_api_key pid : string) :
  exists c,
    calls (validate_api_key_and_project wren_api_key pid) = [c]
    /\ call_method c = "get"
    /\ call_url c = "https://cloud.getwren.ai/api/v1/projects/" +:+ Py.strip pid
    /\ call_headers c !! "Authorization" = Some ("Bearer " +:+ Py.strip wren_api_key)
    /\ call_json c = None
    /\ call_timeout c = 10.
Proof.
  rewrite validate_eq. cbn [calls]. eexists. repeat split.
Qed.

(** X12.  For a request whose identifier reads as an integer, the streaming
    relay returns its response, with status 200 and media type
    text/event-stream, before any upstream call and whatever the upstream
    will answer: the handler itself makes no call. *)
Theorem X12_streaming_status_is_committed_first
    (endpoint_path wren_api_key pid : string) (rd : WrenRequest) (n : Z) :
  project_id rd = Some pid ->
  Py.int (Py.strip pid) = Some n ->
  exists sr,
    outcome (handle_wren_streaming_query endpoint_path (Some rd) wren_api_key) = Ok sr
    /\ sr_status_code sr = 200
    /\ media_type sr = "text/event-stream"
    /\ calls (handle_wren_streaming_query endpoint_path (Some rd) wren_api_key) = [].
Proof.
  intros Hpid Hint.
  rewrite handle_wren_streaming_query_eq, (validated_accept rd pid n Hpid Hint).
  eexists. repeat split.
Qed.

(** X13.  The payload both relays build holds exactly the keys [projectId],
    [question] and [text] and the keys of the extra fields: no extra field is
    dropped and none is added.  A request without text sends [null] under
    [question] and [text] unless the extra fields set them. *)
Theorem X13_payload_keys
    (endpoint_path wren_api_key pid : string) (rd : WrenRequest) (n : Z) :
  project_id rd = Some pid ->
  Py.int (Py.strip pid) = Some n ->
  exists c p,
    served_calls (handle_wren_streaming_query endpoint_path (Some rd) wren_api_key) = [c]
    /\ call_json c = Some p
    /\ dom p = {["projectId"; "question"; "text"]} ∪ dom (additional_payload rd)
    /\ (text rd = None ->
        (additional_payload rd !! "question" = None -> p !! "question" = Some PNone)
        /\ (additional_payload rd !! "text" = None -> p !! "text" = Some PNone)).
Proof.
  intros Hpid Hint.
  unfold served_calls.
  rewrite handle_wren_streaming_query_eq, (validated_accept rd pid n Hpid Hint).
  cbn [calls outcome mret IO_ret body_iterator app].
  rewrite stream_gen_calls.
  exists (stream_call ("https://cloud.getwren.ai/api/v1" +:+ "/" +:+ endpoint_path)
            (upstream_payload rd n) (Py.strip wren_api_key)), (upstream_payload rd n).
  split; [reflexivity|]. split; [reflexivity|].
  unfold upstream_payload. split.
  - rewrite dom_insert_L, dom_union_L, dom_insert_L, dom_singleton_L.
    apply set_eq. intros k. rewrite !elem_of_union, !elem_of_singleton. tauto.
  - intros Htext. rewrite Htext. split; intros Hextra.
    + rewrite lookup_insert_ne by discriminate.
      rewrite lookup_union, Hextra. reflexivity.
    + rewrite lookup_insert_ne by discriminate.
      rewrite lookup_union, Hextra. reflexivity.
Qed.

(** *** The streaming generator *)

(** X9.  When the streaming call fails before any response (anything but
    an [HTTPStatusError]: a refused connection, a timeout), the generator
    yields exactly one frame [event: error], [data: Internal Server Error:
    <text of the exception>], blank line, and ends without raising. *)
Theorem X9_stream_connection_failure
    (wren_full_url wren_api_key : string) (wren_payload : gmap string pyval)
    (c : HttpCall) (e : exn) :
  c ∈ gen_calls (stream_wren_response wren_full_url wren_payload wren_api_key) ->
  http_stream c = Raise e ->
  (forall msg response, e <> HTTPStatusError msg response) ->
  yielded (stream_wren_response wren_full_url wren_payload wren_api_key)
  = [ "event: error" +:+ nl +:+ "data: " +:+ "Internal Server Error: " +:+ exn_str e
      +:+ nl +:+ nl ]
  /\ escaped (stream_wren_response wren_full_url wren_payload wren_api_key) = None.
Proof.
  rewrite stream_gen_calls. intros ->%list_elem_of_singleton Hcall Hnot.
  split; [|apply stream_never_raises].
  unfold stream_wren_response. fold (stream_call wren_full_url wren_payload wren_api_key).
  rewrite Hcall. cbn [fst snd].
  destruct e; try reflexivity.
  exfalso. exact (Hnot _ _ eq_refl).
Qed.

(** X10.  When a response with a status below 400 is interrupted by a fault
    after some chunks, the generator has forwarded those chunks, in order,
    and then yields one frame [event: error], [data: Internal Server Error:
    <fault>], blank line, as its last chunk. *)
Theorem X10_stream_fault_after_chunks
    (wren_full_url wren_api_key msg : string) (wren_payload : gmap string pyval)
    (c : HttpCall) (response : Httpx.Response) :
  c ∈ gen_calls (stream_wren_response wren_full_url wren_payload wren_api_key) ->
  http_stream c = Ok response ->
  Httpx.status_code response < 400 ->
  Httpx.fault response = Some msg ->
  yielded (stream_wren_response wren_full_url wren_payload wren_api_key)
  = (Httpx.chunks response
     ++ [ "event: error" +:+ nl +:+ "data: " +:+ "Internal Server Error: " +:+ msg
          +:+ nl +:+ nl ])%list.
Proof.
  rewrite stream_gen_calls. intros ->%list_elem_of_singleton Hcall Hstatus Hfault.
  exact (stream_fault_mid_stream _ _ _ response msg Hcall Hstatus Hfault).
Qed.

(** X11.  Whatever the upstream does, the generator makes exactly one call
    (a POST with the payload attached and a timeout of 300 seconds; it never
    retries), and what it yields is a run of upstream chunks, empty or all
    the chunks of the response, followed by at most one [event: error] frame:
    an error frame is never followed by anything. *)
Theorem X11_stream_shape
    (wren_full_url wren_api_key : string) (wren_payload : gmap string pyval) :
  let g := stream_wren_response wren_full_url wren_payload wren_api_key in
  exists c forwarded tail,
    gen_calls g = [c]
    /\ call_method c = "POST"
    /\ call_url c = wren_full_url
    /\ call_json c = Some wren_payload
    /\ call_headers c !! "Authorization" = Some ("Bearer " +:+ wren_api_key)
    /\ call_timeout c = 300
    /\ yielded g = (forwarded ++ tail)%list
    /\ (forwarded = []
        \/ exists response, http_stream c = Ok response
                            /\ forwarded = Httpx.chunks response)
    /\ (tail = []
        \/ exists data, tail = ["event: error" +:+ nl +:+ "data: " +:+ data
                                +:+ nl +:+ nl]).
Proof.
  intros g. unfold g.
  exists (stream_call wren_full_url wren_payload wren_api_key).
  assert (Hshape : exists forwarded tail,
    yielded (stream_wren_response wren_full_url wren_payload wren_api_key)
    = (forwarded ++ tail)%list
    /\ (forwarded = []
        \/ exists response,
             http_stream (stream_call wren_full_url wren_payload wren_api_key) = Ok response
             /\ forwarded = Httpx.chunks response)
    /\ (tail = []
        \/ exists data, tail = ["event: error" +:+ nl +:+ "data: " +:+ data
                                +:+ nl +:+ nl])).
  { unfold stream_wren_response, raise_for_status.
    fold (stream_call wren_full_url wren_payload wren_api_key).
    destruct (http_stream _) as [response|e] eqn:Hcall;
      [destruct (400 <=? Httpx.status_code response);
       destruct (Httpx.fault response) as [msg|];
       try destruct (Httpx.is_success response)
      |destruct e];
      cbn [fst snd yielded fmap option_fmap option_map];
      first
        [ eexists _, _; split; [reflexivity|];
          split; [first [left; reflexivity | right; eauto]|right; eauto]
        | exists (Httpx.chunks response), [];
          split; [symmetry; apply app_nil_r|];
          split; [right; eauto|left; reflexivity] ]. }
  destruct Hshape as (forwarded & tail & Hy & Hf & Ht).
  exists forwarded, tail. rewrite stream_gen_calls.
  repeat split; assumption.
Qed.

End Further.

(** *** The further properties on concrete requests *)

Module MoreExamples.

(** An upstream that cannot be reached. *)
Definition down : Upstream := Demo.answering (Raise (OtherError "timed out")).

(** A 200 whose body is the text [{"detail":"boom"}], and one whose body is
    not JSON. *)
Definition ok_boom : Httpx.Response := Demo.response 200 Demo.boom_text (Decoded Demo.boom).

Definition ok_garbage : Httpx.Response :=
  Demo.response 200 "<html>" (DecodeError "Expecting value").

(** Two chunks, then the connection drops. *)
Definition interrupted : Httpx.Response :=
  Demo.streamed 200 ["a"; "b"] (Some "peer closed connection").

Definition no_text : WrenRequest :=
  {| project_id := Some " 11237 "; text := None;
     additional_payload := {["limit" := PInt 5]} |}.

End MoreExamples.

Import MoreExamples.

Lemma X2_witness :
  outcome (@async_wren_call down R "POST" (url "generate_sql")
             (Some (upstream_payload plain 11237)) "key")
  = Raise (HTTPException 500 ("內部伺服器錯誤: " +:+ "timed out")).
Proof.
  apply (@X2_client_transport_failure_is_500 down R "POST" (url "generate_sql") "key"
           (Some (upstream_payload plain 11237))
           (unary_call "POST" (url "generate_sql")
              (Some (upstream_payload plain 11237)) "key")
           (OtherError "timed out")).
  - vm_compute. apply list_elem_of_here.
  - reflexivity.
  - discriminate.
Defined.

Lemma X3_witness :
  outcome (@async_wren_call (up ok_boom) R "POST" (url "generate_sql")
             (Some (upstream_payload plain 11237)) "key") = Ok Demo.boom
  /\ outcome (@async_wren_call (up ok_garbage) R "POST" (url "generate_sql")
                (Some (upstream_payload plain 11237)) "key")
     = Raise (HTTPException 500 ("內部伺服器錯誤: " +:+ "Expecting value")).
Proof.
  split.
  - apply (@X3_client_success_body (up ok_boom) R "POST" (url "generate_sql") "key"
             (Some (upstream_payload plain 11237))
             (unary_call "POST" (url "generate_sql")
                (Some (upstream_payload plain 11237)) "key")
             ok_boom).
    + vm_compute. apply list_elem_of_here.
    + reflexivity.
    + vm_compute. split; discriminate.
    + discriminate.
    + discriminate.
  - apply (@X3_client_success_body (up ok_garbage) R "POST" (url "generate_sql") "key"
             (Some (upstream_payload plain 11237))
             (unary_call "POST" (url "generate_sql")
                (Some (upstream_payload plain 11237)) "key")
             ok_garbage).
    + vm_compute. apply list_elem_of_here.
    + reflexivity.
    + vm_compute. split; discriminate.
    + discriminate.
    + discriminate.
Defined.

Lemma X5_witness :
  Py.int (Py.strip " 11237 ") = Some 11237
  /\ exists c,
       calls (@handle_wren_query (up ok_empty) R Demo.post "stream/ask"
                (Some no_text) " key ") = [c]
       /\ call_method c = "post"
       /\ call_url c = "https://cloud.getwren.ai/api/v1/stream/ask"
       /\ call_headers c !! "Authorization" = Some "Bearer key"
       /\ call_timeout c = 30.
Proof.
  split; [reflexivity|].
  destruct (@X5_relay_calls (up ok_empty) R Demo.post "stream/ask" " key " " 11237 "
              no_text 11237 eq_refl eq_refl) as [Hunary _].
  exact Hunary.
Defined.

Lemma X7_witness :
  outcome (@validate_api_key_and_project down R "key" "11237")
  = Raise (HTTPException 500 ("內部伺服器錯誤: " +:+ "timed out")).
Proof.
  destruct (@X7_validator_internal_errors down R "key" "11237"
              (validate_call "key" "11237")) as [Hfail _].
  - vm_compute. apply list_elem_of_here.
  - apply (Hfail (OtherError "timed out")); [reflexivity|discriminate].
Defined.

Lemma X9_witness :
  yielded (@stream_wren_response down R (url "stream/ask")
             (upstream_payload plain 11237) "key")
  = [ "event: error" +:+ nl +:+ "data: Internal Server Error: timed out" +:+ nl +:+ nl ].
Proof.
  apply (@X9_stream_connection_failure down R (url "stream/ask") "key"
           (upstream_payload plain 11237)
           (stream_call (url "stream/ask") (upstream_payload plain 11237) "key")
           (OtherError "timed out")).
  - vm_compute. apply list_elem_of_here.
  - reflexivity.
  - discriminate.
Defined.

Lemma X10_witness :
  yielded (@stream_wren_response (up interrupted) R (url "stream/ask")
             (upstream_payload plain 11237) "key")
  = [ "a"; "b";
      "event: error" +:+ nl +:+ "data: Internal Server Error: peer closed connection"
      +:+ nl +:+ nl ].
Proof.
  apply (@X10_stream_fault_after_chunks (up interrupted) R (url "stream/ask") "key"
           "peer closed connection" (upstream_payload plain 11237)
           (stream_call (url "stream/ask") (upstream_payload plain 11237) "key")
           interrupted).
  - vm_compute. apply list_elem_of_here.
  - reflexivity.
  - vm_compute. reflexivity.
  - reflexivity.
Defined.

Lemma X12_witness :
  exists sr,
    outcome (@handle_wren_streaming_query down R "stream/ask" (Some plain) "key") = Ok sr
    /\ sr_status_code sr = 200
    /\ media_type sr = "text/event-stream"
    /\ calls (@handle_wren_streaming_query down R "stream/ask" (Some plain) "key") = [].
Proof.
  exact (@X12_streaming_status_is_committed_first down R "stream/ask" "key" "11237"
           plain 11237 eq_refl eq_refl).
Defined.

Lemma X13_witness :
  exists c p,
    served_calls (@handle_wren_streaming_query (up ok_empty) R "stream/ask"
                    (Some no_text) "key") = [c]
    /\ call_json c = Some p
    /\ dom p = {["projectId"; "question"; "text"; "limit"]}
    /\ p !! "question" = Some PNone
    /\ p !! "text" = Some PNone.
Proof.
  destruct (@X13_payload_keys (up ok_empty) R "stream/ask" "key" " 11237 " no_text 11237
              eq_refl eq_refl) as (c & p & Hcalls & Hjson & Hdom & Hnull).
  destruct (Hnull eq_refl) as [Hq Ht].
  exists c, p. split; [exact Hcalls|]. split; [exact Hjson|].
  split; [rewrite Hdom; vm_compute; reflexivity|].
  split; [apply Hq|apply Ht]; reflexivity.
Defined.
